(** * CCID command layer of the Nitrokey HOTP verification tool

    A shallow embedding of [src/operations_ccid.c]: the five operations
    [set_pin_ccid], [authenticate_ccid], [set_secret_on_device_ccid],
    [verify_code_ccid] and [status_ccid], written as programs of a small
    state-and-abort monad over the device structure, the USB world behind
    the transport, the caller's output objects and a log of the calls made
    to the external collaborators (TLV codec, transport, base32 decoder). *)

From Stdlib Require Import ZArith List Bool Lia.
From Stdlib.Strings Require Import Ascii Byte.
From stdpp Require Import base list.
Import ListNotations.

Local Open Scope Z_scope.

(** ** Machine integers and bytes *)

(** Value of a [uint8_t] read from memory, as a C integer. *)
Definition Z_of_byte (b : byte) : Z := Z.of_N (Byte.to_N b).

(** Conversion of a C integer to [uint8_t]: reduction modulo 256. *)
Definition byte_of_Z (z : Z) : byte :=
  match Byte.of_N (Z.to_N (z mod 256)) with
  | Some b => b
  | None => x00
  end.

(** Conversion to [uint32_t] and [uint16_t]. *)
Definition to_uint32 (z : Z) : Z := z mod 2 ^ 32.
Definition to_uint16 (z : Z) : Z := z mod 2 ^ 16.

(** [p[i]] for a byte pointer [p] into a zero-initialised buffer whose
    remaining content is [p]. *)
Definition byte_at (p : list byte) (i : nat) : Z := Z_of_byte (nth i p x00).

(** [be32toh( *(uint32_t * ) p)]: the four bytes at [p], most significant first. *)
Definition be32toh_at (p : list byte) : Z :=
  Z.lor (Z.shiftl (byte_at p 0) 24)
    (Z.lor (Z.shiftl (byte_at p 1) 16)
       (Z.lor (Z.shiftl (byte_at p 2) 8) (byte_at p 3))).

(** [be16toh( *(uint16_t * ) p)]: the two bytes at [p], most significant first. *)
Definition be16toh_at (p : list byte) : Z :=
  Z.lor (Z.shiftl (byte_at p 0) 8) (byte_at p 1).

(** [uint8_t buf[n] = {0}]: an array of [n] zero bytes. *)
Definition zero_buffer (n : nat) : list byte := replicate n x00.
Arguments zero_buffer : simpl never.

(** ** C strings *)

(** A [const char *] is the list of bytes stored at the pointer; the string
    ends at the first NUL byte (or at the end of the list, where the
    terminator sits). *)
Definition is_nul (c : byte) : bool :=
  match c with x00 => true | _ => false end.

Fixpoint strlen (s : list byte) : nat :=
  match s with
  | [] => O
  | c :: s' => if is_nul c then O else S (strlen s')
  end.

(** [strnlen(s, maxlen)]: scans at most [maxlen] bytes for the terminator. *)
Fixpoint strnlen (s : list byte) (maxlen : nat) {struct maxlen} : nat :=
  match maxlen with
  | O => O
  | S n =>
      match s with
      | [] => O
      | c :: s' => if is_nul c then O else S (strnlen s' n)
      end
  end.

(** ** TLV fields and exchange results (tlv.h, ccid.h) *)

(** The value union of a TLV: [v_str], [v_data] or [v_raw]. *)
Inductive tlv_union : Type :=
| v_none
| v_str (s : list byte)
| v_data (d : list byte)
| v_raw (n : Z).

(** [TLV]: fields [tag], [length], [type] and the value union. The type
    declaration is not part of the sources; [length] is kept as the number
    assigned to it. *)
Record TLV : Type := mkTLV {
  tlv_tag : Z;
  tlv_length : nat;
  tlv_type : ascii;
  tlv_value : tlv_union;
}.

(** [TLV t = {}]. *)
Definition TLV_zero : TLV :=
  {| tlv_tag := 0; tlv_length := O; tlv_type := zero; tlv_value := v_none |}.

(** [t.v_data], the byte pointer of a TLV. *)
Definition tlv_v_data (t : TLV) : list byte :=
  match tlv_value t with
  | v_data d => d
  | v_str s => s
  | _ => []
  end.

(** The bytes a TLV designates: the first [length] bytes at its pointer. *)
Definition field_bytes (t : TLV) : list byte :=
  firstn (tlv_length t) (tlv_v_data t).

(** [IccResult]: response data, its length and the 16-bit status word. *)
Record IccResult : Type := mkIccResult {
  data : list byte;
  data_len : nat;
  data_status_code : Z;
}.

(** ** Pointers, the device structure *)

Definition addr := nat.

(** A C pointer: [None] is [NULL]. *)
Definition ptr := option addr.

Definition is_null (p : ptr) : bool :=
  match p with None => true | Some _ => false end.

(** [struct Device]: the transport handle and the two session buffers. *)
Record Device : Type := mkDevice {
  mp_devhandle_ccid : ptr;
  ccid_buffer_in : list byte;
  ccid_buffer_out : list byte;
}.

(** ** Constants of the headers that are not part of the sources *)

(** return_codes.h *)
Class ReturnCodes : Type := {
  RET_NO_ERROR : Z;
  RET_WRONG_PIN : Z;
  RET_NO_PIN_ATTEMPTS : Z;
  RET_SECURITY_STATUS_NOT_SATISFIED : Z;
  RET_VALIDATION_FAILED : Z;
  RET_VALIDATION_PASSED : Z;
  RET_SLOT_NOT_CONFIGURED : Z;
  RET_COMM_ERROR : Z;
}.

(** settings.h *)
Class Settings : Type := {
  MAX_PIN_SIZE_CCID : nat;
  HOTP_SECRET_SIZE_BYTES : nat;
  HOTP_CODE_USE_8_DIGITS : bool;
  SLOT_NAME : list byte;
  SLOT_NAME_LEN : nat;
}.

(** tlv.h and ccid.h: tags, instruction bytes, kind and algorithm bits. *)
Class Protocol : Type := {
  Tag_Password : Z;
  Tag_CredentialId : Z;
  Tag_Key : Z;
  Tag_Properties : Z;
  Tag_InitialCounter : Z;
  Tag_Response : Z;
  Tag_PINCounter : Z;
  Tag_SerialNumber : Z;
  Tag_Version : Z;
  Ins_SetPIN : Z;
  Ins_VerifyPIN : Z;
  Ins_Put : Z;
  Ins_VerifyCode : Z;
  Kind_HotpReverse : Z;
  Algo_Sha1 : Z;
}.

(** What a transport call leaves behind: the transport status, the receive
    buffer, the [IccResult] written through the result pointer and the USB
    world afterwards. *)
Record exchange (W : Type) : Type := mkExchange {
  transport_status : Z;
  received : list byte;
  icc_result : IccResult;
  world_after : W;
}.
Arguments mkExchange {W} _ _ _ _.
Arguments transport_status {W} _.
Arguments received {W} _.
Arguments icc_result {W} _.
Arguments world_after {W} _.

(** The external collaborators, over the state [W] of the USB world:
    - [base32_decode encoded]: the bytes written to the output pointer (the
      C function returns their number);
    - [icc_pack_tlvs_for_sending buf tlvs ins]: the buffer after encoding
      and the encoded length;
    - [get_tlv data data_len tag]: the status and the TLV written;
    - [ccid_process_single handle buf_in buf_out len w]: one exchange with
      the device;
    - [send_select_ccid handle buf w]: the exchange of the select request. *)
Class Collaborators (W : Type) : Type := {
  base32_decode : list byte -> list byte;
  icc_pack_tlvs_for_sending : list byte -> list TLV -> Z -> list byte * nat;
  get_tlv : list byte -> nat -> Z -> Z * TLV;
  ccid_process_single : ptr -> list byte -> list byte -> nat -> W -> exchange W;
  send_select_ccid : ptr -> list byte -> W -> exchange W;
}.

(** ** The machine and its monad *)

(** The assertions of the source, by the condition they check. *)
Inductive assertion : Type :=
| decoded_length_le_HOTP_SECRET_SIZE_BYTES
| hotp_counter_lt_0xFFFFFFFF
| handle_not_NULL
| attempt_counter_not_NULL
| firmware_version_not_NULL
| serial_number_not_NULL.

(** How a C function ends: it returns a value, or an assertion stops the
    program. *)
Inductive outcome (A : Type) : Type :=
| Returned (a : A)
| AssertionFailed (site : assertion).
Arguments Returned {A} a.
Arguments AssertionFailed {A} site.

Section Machine.
Context {W : Type}.

(** The calls to the collaborators, logged in the order they are made.
    [call_pack] and [call_process_single] record the device structure as it
    is when the call is made; the two transport calls record the exchange
    they produced, [call_get_tlv] the tag looked for. *)
Inductive call : Type :=
| call_clean_buffers
| call_pack (ins : Z) (tlvs : list TLV) (d : Device)
| call_process_single (d : Device) (len : nat) (x : exchange W)
| call_select (handle : ptr) (x : exchange W)
| call_get_tlv (tag : Z).

(** The exchange behind a transport call. *)
Definition exchange_of (c : call) : option (exchange W) :=
  match c with
  | call_process_single _ _ x | call_select _ x => Some x
  | _ => None
  end.

(** The state a command runs in: the device structure behind [dev], the
    USB world, the caller's objects by address, and the log. *)
Record Machine : Type := mkMachine {
  dev : Device;
  world : W;
  mem : addr -> Z;
  log : list call;
}.

Definition M (A : Type) : Type := Machine -> outcome A * Machine.

(** The calls a command adds to the log when run from [m], and the
    transport exchanges among them. *)
Definition calls_made {A : Type} (c : M A) (m : Machine) : list call :=
  drop (List.length (log m)) (log (snd (c m))).

Definition exchanges_made {A : Type} (c : M A) (m : Machine)
  : list (exchange W) :=
  omap exchange_of (calls_made c m).

Definition ret {A : Type} (a : A) : M A := fun m => (Returned a, m).

Definition bind {A B : Type} (c : M A) (k : A -> M B) : M B :=
  fun m =>
    match c m with
    | (Returned a, m') => k a m'
    | (AssertionFailed site, m') => (AssertionFailed site, m')
    end.

(** Modelled from the spec: the macro [rassert] of utils.h is not part of
    the sources; a violated assertion is a contract violation that fails
    fast, so the program stops at the assertion. *)
Definition rassert (condition : bool) (site : assertion) : M unit :=
  fun m => if condition then (Returned tt, m) else (AssertionFailed site, m).

Definition record_call (c : call) (m : Machine) : Machine :=
  {| dev := dev m; world := world m; mem := mem m; log := log m ++ [c] |}.

(** The caller's objects with [v] written at address [a]. *)
Definition update (mem : addr -> Z) (a : addr) (v : Z) : addr -> Z :=
  fun a' => if Nat.eqb a' a then v else mem a'.

(** [*p = v] and [*p] on the caller's objects (the pointers used are
    checked against [NULL] on entry). *)
Definition store (p : ptr) (v : Z) : M unit :=
  fun m =>
    match p with
    | Some a =>
        (Returned tt,
         {| dev := dev m; world := world m;
            mem := update (mem m) a v;
            log := log m |})
    | None => (Returned tt, m)
    end.

Definition load (p : ptr) : M Z :=
  fun m =>
    match p with
    | Some a => (Returned (mem m a), m)
    | None => (Returned 0, m)
    end.

End Machine.
Arguments call W : clear implicits.
Arguments Machine W : clear implicits.
Arguments M W A : clear implicits.

Declare Scope cmd_scope.
Delimit Scope cmd_scope with cmd.
Notation "x ← y ; z" := (bind y (fun x => z))
  (at level 20, y at level 100, z at level 200, only parsing) : cmd_scope.
Notation "' x ← y ; z" := (bind y (fun x => z))
  (at level 20, x pattern, y at level 100, z at level 200, only parsing)
  : cmd_scope.
Notation "x ;; z" := (bind x (fun _ => z))
  (at level 100, z at level 200, only parsing, right associativity)
  : cmd_scope.

(** ** The operations of operations_ccid.c *)

Section Operations.
Context {codes : ReturnCodes} {settings : Settings} {protocol : Protocol}
  {W : Type} {device : Collaborators W}.

Local Open Scope cmd_scope.

(** A buffer of the same size with every byte zero. *)
Definition zeroed (buf : list byte) : list byte :=
  zero_buffer (List.length buf).

(** Modelled from the spec: [clean_buffers] of device.h is not part of the
    sources; the shared send and receive buffers of the device session are
    cleared (zeroed). *)
Definition clean_buffers : M W unit :=
  fun m =>
    let d := dev m in
    (Returned tt,
     record_call call_clean_buffers
       {| dev := {| mp_devhandle_ccid := mp_devhandle_ccid d;
                    ccid_buffer_in := zeroed (ccid_buffer_in d);
                    ccid_buffer_out := zeroed (ccid_buffer_out d) |};
          world := world m; mem := mem m; log := log m |}).

(** [icc_pack_tlvs_for_sending(dev->ccid_buffer_out, sizeof dev->ccid_buffer_out,
    tlvs, ARR_LEN(tlvs), ins)]. *)
Definition pack_tlvs (tlvs : list TLV) (ins : Z) : M W nat :=
  fun m =>
    let d := dev m in
    let packed := icc_pack_tlvs_for_sending (ccid_buffer_out d) tlvs ins in
    (Returned (snd packed),
     record_call (call_pack ins tlvs d)
       {| dev := {| mp_devhandle_ccid := mp_devhandle_ccid d;
                    ccid_buffer_in := ccid_buffer_in d;
                    ccid_buffer_out := fst packed |};
          world := world m; mem := mem m; log := log m |}).

(** [ccid_process_single(dev->mp_devhandle_ccid, dev->ccid_buffer_in,
    sizeof dev->ccid_buffer_in, dev->ccid_buffer_out, icc_actual_length,
    &iccResult)]: the status [r] and the [iccResult] it leaves. *)
Definition process_single (icc_actual_length : nat) : M W (Z * IccResult) :=
  fun m =>
    let d := dev m in
    let x := ccid_process_single (mp_devhandle_ccid d) (ccid_buffer_in d)
               (ccid_buffer_out d) icc_actual_length (world m) in
    (Returned (transport_status x, icc_result x),
     record_call (call_process_single d icc_actual_length x)
       {| dev := {| mp_devhandle_ccid := mp_devhandle_ccid d;
                    ccid_buffer_in := received x;
                    ccid_buffer_out := ccid_buffer_out d |};
          world := world_after x; mem := mem m; log := log m |}).

(** [send_select_ccid(handle, buf, sizeof buf, &iccResult)]. *)
Definition select (handle : ptr) (buf : list byte) : M W (Z * IccResult) :=
  fun m =>
    let x := send_select_ccid handle buf (world m) in
    (Returned (transport_status x, icc_result x),
     record_call (call_select handle x)
       {| dev := dev m; world := world_after x; mem := mem m; log := log m |}).

(** [get_tlv(iccResult.data, iccResult.data_len, tag, &tlv)]. *)
Definition find_tlv (iccResult : IccResult) (tag : Z) : M W (Z * TLV) :=
  fun m =>
    (Returned (get_tlv (data iccResult) (data_len iccResult) tag),
     record_call (call_get_tlv tag) m).

Definition set_pin_ccid (admin_PIN : list byte) : M W Z :=
  let tlvs :=
    [ {| tlv_tag := Tag_Password;
         tlv_length := strnlen admin_PIN MAX_PIN_SIZE_CCID;
         tlv_type := "S";
         tlv_value := v_str admin_PIN |} ] in
  clean_buffers;;
  icc_actual_length ← pack_tlvs tlvs Ins_SetPIN;
  '(r, iccResult) ← process_single icc_actual_length;
  if negb (r =? 0) then ret r
  else if negb (data_status_code iccResult =? 0x9000) then ret 1
  else ret 0.

Definition authenticate_ccid (admin_PIN : list byte) : M W Z :=
  let tlvs :=
    [ {| tlv_tag := Tag_Password;
         tlv_length := strnlen admin_PIN 30;
         tlv_type := "S";
         tlv_value := v_str admin_PIN |} ] in
  clean_buffers;;
  icc_actual_length ← pack_tlvs tlvs Ins_VerifyPIN;
  '(r, iccResult) ← process_single icc_actual_length;
  if negb (r =? 0) then ret r
  else if data_status_code iccResult =? 0x6300 then ret RET_WRONG_PIN
  else if negb (data_status_code iccResult =? 0x9000) then ret 1
  else ret RET_NO_ERROR.

(** Line 106 hands [base32_decode] the address [binary_secret_buf + 2] and
    no capacity: every decoded byte is stored from there on. The store
    stays inside the array of [HOTP_SECRET_SIZE_BYTES + 2] bytes exactly
    when the offset and the decoded bytes together are at most the bytes
    of the array. *)
Definition decoder_write_in_bounds (OTP_secret_base32 : list byte) : bool :=
  (2 + List.length (base32_decode OTP_secret_base32)
   <=? List.length (zero_buffer (HOTP_SECRET_SIZE_BYTES + 2)))%nat.

(** The array [binary_secret_buf] is written in place. Where
    [decoder_write_in_bounds] holds, so whenever the length assertion
    passes, this is what the source does. Where it fails, the C function
    has stored bytes past the end of the array before its first assertion
    and its behaviour is undefined; [list_inserts] keeps the bytes that
    fit, and nothing is claimed of the C function there. *)
Definition set_secret_on_device_ccid
    (OTP_secret_base32 : list byte) (hotp_counter : Z) : M W Z :=
  let binary_secret_buf := zero_buffer (HOTP_SECRET_SIZE_BYTES + 2) in
  let decoded := base32_decode OTP_secret_base32 in
  let binary_secret_buf := list_inserts 2 decoded binary_secret_buf in
  let decoded_length := (List.length decoded + 2)%nat in
  rassert (decoded_length <=? HOTP_SECRET_SIZE_BYTES)%nat
    decoded_length_le_HOTP_SECRET_SIZE_BYTES;;
  let binary_secret_buf :=
    <[0%nat := byte_of_Z (Z.lor Kind_HotpReverse Algo_Sha1)]> binary_secret_buf in
  let binary_secret_buf :=
    <[1%nat := byte_of_Z (if HOTP_CODE_USE_8_DIGITS then 8 else 6)]>
      binary_secret_buf in
  let properties := [byte_of_Z Tag_Properties; x00] in
  rassert (hotp_counter <? 0xFFFFFFFF) hotp_counter_lt_0xFFFFFFFF;;
  let initial_counter_value := to_uint32 hotp_counter in
  let tlvs :=
    [ {| tlv_tag := Tag_CredentialId;
         tlv_length := SLOT_NAME_LEN;
         tlv_type := "S";
         tlv_value := v_str SLOT_NAME |};
      {| tlv_tag := Tag_Key;
         tlv_length := decoded_length;
         tlv_type := "R";
         tlv_value := v_data binary_secret_buf |};
      {| tlv_tag := Tag_Properties;
         tlv_length := 2;
         tlv_type := "B";
         tlv_value := v_data properties |};
      {| tlv_tag := Tag_InitialCounter;
         tlv_length := 4;
         tlv_type := "I";
         tlv_value := v_raw initial_counter_value |} ] in
  clean_buffers;;
  icc_actual_length ← pack_tlvs tlvs Ins_Put;
  '(r, iccResult) ← process_single icc_actual_length;
  if negb (r =? 0) then ret r
  else if data_status_code iccResult =? 0x6a82 then ret RET_NO_PIN_ATTEMPTS
  else if data_status_code iccResult =? 0x6982
       then ret RET_SECURITY_STATUS_NOT_SATISFIED
  else if negb (data_status_code iccResult =? 0x9000)
       then ret RET_VALIDATION_FAILED
  else ret RET_NO_ERROR.

Definition verify_code_ccid (code_to_verify : Z) : M W Z :=
  let tlvs :=
    [ {| tlv_tag := Tag_CredentialId;
         tlv_length := SLOT_NAME_LEN;
         tlv_type := "S";
         tlv_value := v_str SLOT_NAME |};
      {| tlv_tag := Tag_Response;
         tlv_length := 4;
         tlv_type := "I";
         tlv_value := v_raw code_to_verify |} ] in
  clean_buffers;;
  icc_actual_length ← pack_tlvs tlvs Ins_VerifyCode;
  '(r, iccResult) ← process_single icc_actual_length;
  if negb (r =? 0) then ret r
  else if data_status_code iccResult =? 0x6A82 then ret RET_SLOT_NOT_CONFIGURED
  else if negb (data_status_code iccResult =? 0x9000)
       then ret RET_VALIDATION_FAILED
  else ret RET_VALIDATION_PASSED.

(** [r == RET_NO_ERROR && tlv.tag == tag] after a [get_tlv]. *)
Definition found (tag : Z) (r_tlv : Z * TLV) : bool :=
  (fst r_tlv =? RET_NO_ERROR) && (tlv_tag (snd r_tlv) =? tag).

Definition status_ccid
    (handle attempt_counter firmware_version serial_number : ptr) : M W Z :=
  rassert (negb (is_null handle)) handle_not_NULL;;
  rassert (negb (is_null attempt_counter)) attempt_counter_not_NULL;;
  rassert (negb (is_null firmware_version)) firmware_version_not_NULL;;
  rassert (negb (is_null serial_number)) serial_number_not_NULL;;
  let buf := zero_buffer 1024 in
  '(r, iccResult) ← select handle buf;
  if negb (r =? RET_NO_ERROR) then ret r
  else if (data_len iccResult =? 0)%nat
          || negb (data_status_code iccResult =? 0x9000)
       then ret RET_COMM_ERROR
  else
    counter ← find_tlv iccResult Tag_PINCounter;
    (if negb (found Tag_PINCounter counter)
     then store attempt_counter (-1)
     else store attempt_counter (byte_at (tlv_v_data (snd counter)) 0));;
    serial ← find_tlv iccResult Tag_SerialNumber;
    (if found Tag_SerialNumber serial
     then store serial_number (to_uint32 (be32toh_at (tlv_v_data (snd serial))))
     else store serial_number 0);;
    version ← find_tlv iccResult Tag_Version;
    if negb (found Tag_Version version)
    then store firmware_version 0;; ret RET_COMM_ERROR
    else
      store firmware_version (to_uint16 (be16toh_at (tlv_v_data (snd version))));;
      counter_now ← load attempt_counter;
      if counter_now =? -1 then ret RET_NO_PIN_ATTEMPTS
      else ret RET_NO_ERROR.

End Operations.

(** * Vocabulary of the properties *)

Section Vocabulary.
Context {codes : ReturnCodes} {settings : Settings} {protocol : Protocol}
  {W : Type} {device : Collaborators W}.

Local Open Scope cmd_scope.

(** ** The shape shared by the four device commands *)

(** The device structure after [clean_buffers]. *)
Definition cleaned (d : Device) : Device :=
  {| mp_devhandle_ccid := mp_devhandle_ccid d;
     ccid_buffer_in := zeroed (ccid_buffer_in d);
     ccid_buffer_out := zeroed (ccid_buffer_out d) |}.

(** The device structure after encoding [tlvs] into the cleaned buffer. *)
Definition encoded (d : Device) (tlvs : list TLV) (ins : Z) : Device :=
  {| mp_devhandle_ccid := mp_devhandle_ccid d;
     ccid_buffer_in := zeroed (ccid_buffer_in d);
     ccid_buffer_out :=
       fst (icc_pack_tlvs_for_sending (zeroed (ccid_buffer_out d)) tlvs ins) |}.

Definition encoded_length (d : Device) (tlvs : list TLV) (ins : Z) : nat :=
  snd (icc_pack_tlvs_for_sending (zeroed (ccid_buffer_out d)) tlvs ins).

(** The exchange the transport produces for that request. *)
Definition exchange_for (m : Machine W) (tlvs : list TLV) (ins : Z)
  : exchange W :=
  ccid_process_single (mp_devhandle_ccid (dev m))
    (zeroed (ccid_buffer_in (dev m)))
    (ccid_buffer_out (encoded (dev m) tlvs ins))
    (encoded_length (dev m) tlvs ins) (world m).

(** The three calls of a command, in order. *)
Definition command_calls (m : Machine W) (tlvs : list TLV) (ins : Z)
  : list (call W) :=
  [ call_clean_buffers;
    call_pack ins tlvs (cleaned (dev m));
    call_process_single (encoded (dev m) tlvs ins)
      (encoded_length (dev m) tlvs ins) (exchange_for m tlvs ins) ].

(** The machine a command leaves. *)
Definition after_command (m : Machine W) (tlvs : list TLV) (ins : Z)
  : Machine W :=
  {| dev := {| mp_devhandle_ccid := mp_devhandle_ccid (dev m);
               ccid_buffer_in := received (exchange_for m tlvs ins);
               ccid_buffer_out := ccid_buffer_out (encoded (dev m) tlvs ins) |};
     world := world_after (exchange_for m tlvs ins);
     mem := mem m;
     log := log m ++ command_calls m tlvs ins |}.

(** Clean, encode, exchange, then return the transport status when it is
    nonzero and the reading of the [IccResult] otherwise. *)
Definition command (tlvs : list TLV) (ins : Z) (reading : IccResult -> Z)
  : M W Z :=
  clean_buffers;;
  icc_actual_length ← pack_tlvs tlvs ins;
  '(r, iccResult) ← process_single icc_actual_length;
  ret (if negb (r =? 0) then r else reading iccResult).

(** ** Field lists and status readings of the four commands *)

(** The single field of set-PIN and authenticate. *)
Definition password_tlvs (admin_PIN : list byte) (maxlen : nat) : list TLV :=
  [ {| tlv_tag := Tag_Password;
       tlv_length := strnlen admin_PIN maxlen;
       tlv_type := "S";
       tlv_value := v_str admin_PIN |} ].

(** [binary_secret_buf] as the encoder sees it. *)
Definition secret_blob (decoded : list byte) : list byte :=
  <[1%nat := byte_of_Z (if HOTP_CODE_USE_8_DIGITS then 8 else 6)]>
    (<[0%nat := byte_of_Z (Z.lor Kind_HotpReverse Algo_Sha1)]>
       (list_inserts 2 decoded (zero_buffer (HOTP_SECRET_SIZE_BYTES + 2)))).

(** The fields of provisioning, the counter last. *)
Definition counter_tlv (initial_counter_value : Z) : TLV :=
  {| tlv_tag := Tag_InitialCounter;
     tlv_length := 4;
     tlv_type := "I";
     tlv_value := v_raw initial_counter_value |}.

Definition put_tlvs (decoded : list byte) (initial_counter_value : Z)
  : list TLV :=
  [ {| tlv_tag := Tag_CredentialId;
       tlv_length := SLOT_NAME_LEN;
       tlv_type := "S";
       tlv_value := v_str SLOT_NAME |};
    {| tlv_tag := Tag_Key;
       tlv_length := List.length decoded + 2;
       tlv_type := "R";
       tlv_value := v_data (secret_blob decoded) |};
    {| tlv_tag := Tag_Properties;
       tlv_length := 2;
       tlv_type := "B";
       tlv_value := v_data [byte_of_Z Tag_Properties; x00] |};
    counter_tlv initial_counter_value ].

(** The fields of code verification. *)
Definition verify_tlvs (code_to_verify : Z) : list TLV :=
  [ {| tlv_tag := Tag_CredentialId;
       tlv_length := SLOT_NAME_LEN;
       tlv_type := "S";
       tlv_value := v_str SLOT_NAME |};
    {| tlv_tag := Tag_Response;
       tlv_length := 4;
       tlv_type := "I";
       tlv_value := v_raw code_to_verify |} ].

(** What each command returns for an [IccResult] after a transport
    status 0. *)
Definition set_pin_reading (iccResult : IccResult) : Z :=
  if negb (data_status_code iccResult =? 0x9000) then 1 else 0.

Definition authenticate_reading (iccResult : IccResult) : Z :=
  if data_status_code iccResult =? 0x6300 then RET_WRONG_PIN
  else if negb (data_status_code iccResult =? 0x9000) then 1
  else RET_NO_ERROR.

Definition put_reading (iccResult : IccResult) : Z :=
  if data_status_code iccResult =? 0x6a82 then RET_NO_PIN_ATTEMPTS
  else if data_status_code iccResult =? 0x6982
       then RET_SECURITY_STATUS_NOT_SATISFIED
  else if negb (data_status_code iccResult =? 0x9000)
       then RET_VALIDATION_FAILED
  else RET_NO_ERROR.

Definition verify_reading (iccResult : IccResult) : Z :=
  if data_status_code iccResult =? 0x6A82 then RET_SLOT_NOT_CONFIGURED
  else if negb (data_status_code iccResult =? 0x9000)
       then RET_VALIDATION_FAILED
  else RET_VALIDATION_PASSED.

(** ** Notions of the statements *)

(** What ties the calls [call_pack ins tlvs d] and
    [call_process_single d' n x] of a run from [m] together: the send
    buffer at the exchange is what the encoder made of [tlvs] in the send
    buffer of [d], the length passed is the length the encoder returned,
    the handle is that of the device, and [x] is what the transport makes
    of this request in the world of [m]. *)
Definition request_exchanged (m : Machine W) (ins : Z) (tlvs : list TLV)
    (d d' : Device) (n : nat) (x : exchange W) : Prop :=
  ccid_buffer_out d' =
  fst (icc_pack_tlvs_for_sending (ccid_buffer_out d) tlvs ins) /\
  n = snd (icc_pack_tlvs_for_sending (ccid_buffer_out d) tlvs ins) /\
  mp_devhandle_ccid d' = mp_devhandle_ccid (dev m) /\
  x = ccid_process_single (mp_devhandle_ccid d') (ccid_buffer_in d')
        (ccid_buffer_out d') n (world m).

(** Running [c] from [m] encodes, under instruction [ins], a single field:
    the password field of kind S whose pointer is [admin_PIN] and whose
    length is the smaller of the length of the PIN and [maxlen], so that
    the field holds that many bytes, the first of the PIN; the request the
    encoder makes of this field is the one exchanged with the device, and
    the command returns. *)
Definition sends_password (c : M W Z) (ins : Z) (admin_PIN : list byte)
    (maxlen : nat) (m : Machine W) : Prop :=
  exists t d d' n x r,
    calls_made c m =
    [call_clean_buffers; call_pack ins [t] d; call_process_single d' n x] /\
    tlv_tag t = Tag_Password /\
    tlv_type t = "S"%char /\
    tlv_value t = v_str admin_PIN /\
    tlv_length t = Nat.min (strlen admin_PIN) maxlen /\
    List.length (field_bytes t) = Nat.min (strlen admin_PIN) maxlen /\
    field_bytes t = take (Nat.min (strlen admin_PIN) maxlen) admin_PIN /\
    request_exchanged m ins [t] d d' n x /\
    fst (c m) = Returned r.

(** The exchange of the select request. *)
Definition select_exchange (handle : ptr) (m : Machine W) : exchange W :=
  send_select_ccid handle (zero_buffer 1024) (world m).

(** The machine after the select request alone. *)
Definition selected (handle : ptr) (m : Machine W) : Machine W :=
  {| dev := dev m;
     world := world_after (select_exchange handle m);
     mem := mem m;
     log := log m ++ [call_select handle (select_exchange handle m)] |}.

(** The field [get_tlv] yields for a tag in the response of [x], and
    whether the source takes it as present. *)
Definition field (x : exchange W) (tag : Z) : Z * TLV :=
  get_tlv (data (icc_result x)) (data_len (icc_result x)) tag.

Definition present (x : exchange W) (tag : Z) : bool :=
  found tag (field x tag).

(** The values the three extraction steps write. *)
Definition counter_written (x : exchange W) : Z :=
  if present x Tag_PINCounter
  then byte_at (tlv_v_data (snd (field x Tag_PINCounter))) 0
  else -1.

Definition serial_written (x : exchange W) : Z :=
  if present x Tag_SerialNumber
  then to_uint32 (be32toh_at (tlv_v_data (snd (field x Tag_SerialNumber))))
  else 0.

Definition version_written (x : exchange W) : Z :=
  if present x Tag_Version
  then to_uint16 (be16toh_at (tlv_v_data (snd (field x Tag_Version))))
  else 0.

(** The machine after the three extraction steps. *)
Definition extracted (handle : ptr) (a f s : addr) (m : Machine W)
  : Machine W :=
  let x := select_exchange handle m in
  {| dev := dev m;
     world := world_after x;
     mem := update (update (update (mem m) a (counter_written x))
                      s (serial_written x))
              f (version_written x);
     log := log m ++
            [ call_select handle x; call_get_tlv Tag_PINCounter;
              call_get_tlv Tag_SerialNumber; call_get_tlv Tag_Version ] |}.

(** Whenever an exchange made by [c] reports a nonzero transport status,
    that exchange is the only one made, [c] returns the status itself,
    whatever [IccResult] came with it, the value returned is not 0, and
    the caller's objects are as they were. *)
Definition propagates_transport_status (c : M W Z) (m : Machine W) : Prop :=
  forall x : exchange W,
    In x (exchanges_made c m) ->
    transport_status x <> 0 ->
    exchanges_made c m = [x] /\
    fst (c m) = Returned (transport_status x) /\
    fst (c m) <> Returned 0 /\
    mem (snd (c m)) = mem m.

(** Every byte of the buffer is zero. *)
Definition all_zero (buf : list byte) : Prop := Forall (fun b => b = x00) buf.

(** Two machines that differ at most in what their two buffers hold. *)
Definition same_session (m1 m2 : Machine W) : Prop :=
  mp_devhandle_ccid (dev m1) = mp_devhandle_ccid (dev m2) /\
  List.length (ccid_buffer_in (dev m1)) = List.length (ccid_buffer_in (dev m2)) /\
  List.length (ccid_buffer_out (dev m1)) = List.length (ccid_buffer_out (dev m2)) /\
  world m1 = world m2 /\ mem m1 = mem m2 /\ log m1 = log m2.

(** Run from [m], [c] makes exactly three calls: it clears the buffers,
    then encodes with both buffers (of unchanged size) all zero, then
    exchanges with the receive buffer (of unchanged size) still all zero
    and the request the encoder made in the zeroed send buffer. *)
Definition clears_then_exchanges (c : M W Z) (m : Machine W) : Prop :=
  exists ins tlvs d d' n x,
    calls_made c m =
    [call_clean_buffers; call_pack ins tlvs d; call_process_single d' n x] /\
    all_zero (ccid_buffer_in d) /\ all_zero (ccid_buffer_out d) /\
    List.length (ccid_buffer_in d) = List.length (ccid_buffer_in (dev m)) /\
    List.length (ccid_buffer_out d) = List.length (ccid_buffer_out (dev m)) /\
    all_zero (ccid_buffer_in d') /\
    List.length (ccid_buffer_in d') = List.length (ccid_buffer_in (dev m)) /\
    request_exchanged m ins tlvs d d' n x.

(** What [c] returns, the calls it makes (the request encoded and
    exchanged, the response received) and the world it leaves are the same
    for two machines that differ only in the bytes their buffers held
    before. *)
Definition blind_to_leftovers (c : M W Z) : Prop :=
  forall m1 m2 : Machine W,
    same_session m1 m2 ->
    fst (c m1) = fst (c m2) /\
    calls_made c m1 = calls_made c m2 /\
    world (snd (c m1)) = world (snd (c m2)).

(** An operation without assertions: every run clears, encodes and
    exchanges in this order, blind to what the buffers held. *)
Definition clears_before_use (c : M W Z) : Prop :=
  (forall m : Machine W, clears_then_exchanges c m) /\ blind_to_leftovers c.

End Vocabulary.

(** * A simulated device

    Stand-ins for the headers and collaborators that are not part of the
    sources, to run the operations on concrete inputs: sample values for
    the constants, a base32 decoder, a TLV encoder and parser, and a
    transport that answers every request with a fixed status and response
    and counts the exchanges. *)

Definition sample_codes : ReturnCodes :=
  {| RET_NO_ERROR := 0;
     RET_WRONG_PIN := 2;
     RET_NO_PIN_ATTEMPTS := 4;
     RET_SECURITY_STATUS_NOT_SATISFIED := 6;
     RET_VALIDATION_FAILED := 1;
     RET_VALIDATION_PASSED := 0;
     RET_SLOT_NOT_CONFIGURED := 5;
     RET_COMM_ERROR := 3 |}.

Definition sample_settings : Settings :=
  {| MAX_PIN_SIZE_CCID := 8;
     HOTP_SECRET_SIZE_BYTES := 40;
     HOTP_CODE_USE_8_DIGITS := false;
     SLOT_NAME := ["H"; "O"; "T"; "P"]%byte;
     SLOT_NAME_LEN := 4 |}.

Definition sample_protocol : Protocol :=
  {| Tag_Password := 0x80;
     Tag_CredentialId := 0x71;
     Tag_Key := 0x73;
     Tag_Properties := 0x78;
     Tag_InitialCounter := 0x7A;
     Tag_Response := 0x75;
     Tag_PINCounter := 0x82;
     Tag_SerialNumber := 0x8F;
     Tag_Version := 0x79;
     Ins_SetPIN := 0xB4;
     Ins_VerifyPIN := 0xB2;
     Ins_Put := 0x01;
     Ins_VerifyCode := 0xB1;
     Kind_HotpReverse := 0x30;
     Algo_Sha1 := 0x01 |}.

(** Value of a base32 digit: A-Z, then 2-7. *)
Definition base32_digit (c : byte) : option N :=
  let n := Byte.to_N c in
  if ((65 <=? n) && (n <=? 90))%N then Some (n - 65)%N
  else if ((50 <=? n) && (n <=? 55))%N then Some (n - 24)%N
  else None.

(** Decoding, five bits a digit, up to the first byte that is no digit. *)
Fixpoint base32_bytes (s : list byte) (acc bits : N) : list byte :=
  match s with
  | [] => []
  | c :: s' =>
      match base32_digit c with
      | None => []
      | Some v =>
          let acc := (acc * 32 + v)%N in
          let bits := (bits + 5)%N in
          if (8 <=? bits)%N
          then byte_of_Z (Z.of_N (acc / 2 ^ (bits - 8)))
               :: base32_bytes s' (acc mod 2 ^ (bits - 8))%N (bits - 8)%N
          else base32_bytes s' acc bits
      end
  end.

(** A field on the wire: tag, length, then the value, a 32-bit integer
    most significant byte first. *)
Definition wire_tlv (t : TLV) : list byte :=
  byte_of_Z (tlv_tag t) :: byte_of_Z (Z.of_nat (tlv_length t)) ::
  match tlv_value t with
  | v_raw n =>
      [ byte_of_Z (Z.shiftr n 24); byte_of_Z (Z.shiftr n 16);
        byte_of_Z (Z.shiftr n 8); byte_of_Z n ]
  | _ => field_bytes t
  end.

Definition wire_request (buf : list byte) (tlvs : list TLV) (ins : Z)
  : list byte * nat :=
  let bytes := byte_of_Z ins :: flat_map wire_tlv tlvs in
  (list_inserts 0 bytes buf, List.length bytes).

(** The first field with the given tag in a sequence of fields. *)
Fixpoint wire_find (fuel : nat) (bytes : list byte) (tag : Z) : option TLV :=
  match fuel with
  | O => None
  | S fuel' =>
      match bytes with
      | t :: l :: value =>
          if Z_of_byte t =? tag
          then Some {| tlv_tag := tag;
                       tlv_length := N.to_nat (Byte.to_N l);
                       tlv_type := "R";
                       tlv_value := v_data value |}
          else wire_find fuel' (drop (N.to_nat (Byte.to_N l)) value) tag
      | _ => None
      end
  end.

Definition wire_get_tlv (bytes : list byte) (len : nat) (tag : Z) : Z * TLV :=
  match wire_find len (take len bytes) tag with
  | Some t => (@RET_NO_ERROR sample_codes, t)
  | None => (@RET_COMM_ERROR sample_codes, TLV_zero)
  end.

(** The response of a simulated device: its status word and data. *)
Definition response (status_word : Z) (bytes : list byte) : IccResult :=
  {| data := bytes; data_len := List.length bytes;
     data_status_code := status_word |}.

(** A device behind a transport that reports [status] and leaves
    [iccResult] for every request; the world counts the exchanges. *)
Definition simulated (status : Z) (iccResult : IccResult) : Collaborators nat :=
  {| base32_decode := fun s => base32_bytes s 0 0;
     icc_pack_tlvs_for_sending := wire_request;
     get_tlv := wire_get_tlv;
     ccid_process_single := fun _ buffer_in _ _ w =>
       mkExchange status buffer_in iccResult (S w);
     send_select_ccid := fun _ _ w =>
       mkExchange status [] iccResult (S w) |}.

(** A machine whose buffers of 32 bytes still hold [filler] from an
    earlier command. *)
Definition machine_with (filler : byte) : Machine nat :=
  {| dev := {| mp_devhandle_ccid := Some 1%nat;
               ccid_buffer_in := replicate 32 filler;
               ccid_buffer_out := replicate 32 filler |};
     world := 0%nat;
     mem := fun _ => 77;
     log := [] |}.

Definition pin_0000 : list byte := ["0"; "0"; "0"; "0"]%byte.
Definition pin_123456789 : list byte :=
  ["1"; "2"; "3"; "4"; "5"; "6"; "7"; "8"; "9"]%byte.

(** JBSWY3DPEHPK3PXP *)
Definition secret_JBSWY3DPEHPK3PXP : list byte :=
  ["J"; "B"; "S"; "W"; "Y"; "3"; "D"; "P"; "E"; "H"; "P"; "K"; "3"; "P";
   "X"; "P"]%byte.

(** A device that answers with the given status word and data, and a
    transport that fails with the given status. *)
Definition device_answering (status_word : Z) (bytes : list byte)
  : Collaborators nat :=
  simulated 0 (response status_word bytes).

Definition transport_failing (status : Z) : Collaborators nat :=
  simulated status (response 0 []).

(** The exchange such a device produces on a machine with 32-byte buffers. *)
Definition answer (status_word : Z) (bytes : list byte) : exchange nat :=
  mkExchange 0 (zero_buffer 32) (response status_word bytes) 1%nat.

(** Select responses: the version field 0x0100 alone, and the attempt
    counter 8, the version 0x0100 and the serial number 0x01020304. *)
Definition version_only : list byte := [x79; x02; x01; x00]%byte.

Definition all_fields : list byte :=
  [x82; x01; x08; x79; x02; x01; x00; x8f; x04; x01; x02; x03; x04]%byte.

(** The status query on a device that answers the select request with the
    given status word and data; the outputs are the objects at the
    addresses 10 (attempt counter), 11 (firmware version) and 12 (serial
    number), each holding 77 before. *)
Definition status_of (status_word : Z) (bytes : list byte)
  : outcome Z * Machine nat :=
  status_ccid (codes := sample_codes) (protocol := sample_protocol)
    (device := device_answering status_word bytes)
    (Some 1%nat) (Some 10%nat) (Some 11%nat) (Some 12%nat) (machine_with xff).

(** ** Notions of the further properties *)

Section FurtherVocabulary.
Context {codes : ReturnCodes} {settings : Settings} {protocol : Protocol}
  {W : Type} {device : Collaborators W}.

(** Running [c] from [m] encodes, under [ins], one password field that
    holds no NUL byte; and when the PIN buffer has a NUL byte after
    [before], the field is cut from [before] alone. *)
Definition password_stops_at_nul (c : M W Z) (ins : Z) (admin_PIN : list byte)
    (maxlen : nat) (m : Machine W) : Prop :=
  exists t d d' n x,
    calls_made c m =
    [call_clean_buffers; call_pack ins [t] d; call_process_single d' n x] /\
    Forall (fun b => b <> x00) (field_bytes t) /\
    forall before after,
      admin_PIN = before ++ x00 :: after ->
      Forall (fun b => b <> x00) before ->
      field_bytes t = take maxlen before.

End FurtherVocabulary.

(** A select response with the attempt counter 8 and the serial number
    0x01020304 but no version field. *)
Definition no_version : list byte :=
  [x82; x01; x08; x8f; x04; x01; x02; x03; x04]%byte.

(** The answer of the simulated device to the select request. *)
Definition select_answer (status_word : Z) (bytes : list byte) : exchange nat :=
  mkExchange 0 [] (response status_word bytes) 1%nat.

Ltac command_cases :=
  cbn;
  repeat match goal with
         | |- context [if ?b then _ else _] => destruct b; cbn
         end;
  reflexivity.

(** * Properties *)

(** ** Bytes and strings *)

Lemma Z_of_byte_range (b : byte) : 0 <= Z_of_byte b < 256.
Proof.
  unfold Z_of_byte. pose proof (Byte.to_N_bounded b). lia.
Qed.

Lemma byte_at_range (p : list byte) (i : nat) : 0 <= byte_at p i < 256.
Proof. apply Z_of_byte_range. Qed.

Lemma strnlen_min (s : list byte) (maxlen : nat) :
  strnlen s maxlen = Nat.min (strlen s) maxlen.
Proof.
  revert s. induction maxlen as [|n IH]; intros s.
  - simpl. symmetry. apply Nat.min_0_r.
  - destruct s as [|c s']; simpl; [reflexivity|].
    destruct (is_nul c); [reflexivity|]. now rewrite IH.
Qed.

Lemma strlen_le_length (s : list byte) : (strlen s <= List.length s)%nat.
Proof.
  induction s as [|c s' IH]; simpl; [lia|].
  destruct (is_nul c); lia.
Qed.

(** ** The shape shared by the four device commands *)

Section Commands.
Context {codes : ReturnCodes} {settings : Settings} {protocol : Protocol}
  {W : Type} {device : Collaborators W}.

Lemma command_run tlvs ins reading (m : Machine W) :
  command tlvs ins reading m =
  (Returned
     (if negb (transport_status (exchange_for m tlvs ins) =? 0)
      then transport_status (exchange_for m tlvs ins)
      else reading (icc_result (exchange_for m tlvs ins))),
   after_command m tlvs ins).
Proof.
  unfold command, after_command, command_calls. cbn.
  unfold ret, record_call. cbn. rewrite <- !app_assoc. reflexivity.
Qed.

Lemma calls_made_command tlvs ins reading (m : Machine W) :
  calls_made (command tlvs ins reading) m = command_calls m tlvs ins.
Proof.
  unfold calls_made. rewrite command_run. cbn. apply drop_app_length.
Qed.

Lemma exchanges_made_command tlvs ins reading (m : Machine W) :
  exchanges_made (command tlvs ins reading) m = [exchange_for m tlvs ins].
Proof.
  unfold exchanges_made. rewrite calls_made_command. reflexivity.
Qed.

(** The exchange of a command is that of the request its encoder made. *)
Lemma command_request_exchanged tlvs ins (m : Machine W) :
  request_exchanged m ins tlvs (cleaned (dev m)) (encoded (dev m) tlvs ins)
    (encoded_length (dev m) tlvs ins) (exchange_for m tlvs ins).
Proof.
  unfold request_exchanged. repeat split.
Qed.

Lemma set_pin_ccid_command admin_PIN (m : Machine W) :
  set_pin_ccid admin_PIN m =
  command (password_tlvs admin_PIN MAX_PIN_SIZE_CCID) Ins_SetPIN
    set_pin_reading m.
Proof.
  unfold set_pin_ccid, command, password_tlvs, set_pin_reading. command_cases.
Qed.

Lemma authenticate_ccid_command admin_PIN (m : Machine W) :
  authenticate_ccid admin_PIN m =
  command (password_tlvs admin_PIN 30) Ins_VerifyPIN authenticate_reading m.
Proof.
  unfold authenticate_ccid, command, password_tlvs, authenticate_reading.
  command_cases.
Qed.

Lemma verify_code_ccid_command code_to_verify (m : Machine W) :
  verify_code_ccid code_to_verify m =
  command (verify_tlvs code_to_verify) Ins_VerifyCode verify_reading m.
Proof.
  unfold verify_code_ccid, command, verify_tlvs, verify_reading.
  command_cases.
Qed.

(** Provisioning is a command behind its two assertions. *)
Lemma set_secret_on_device_ccid_command secret hotp_counter (m : Machine W) :
  set_secret_on_device_ccid secret hotp_counter m =
  if (List.length (base32_decode secret) + 2 <=? HOTP_SECRET_SIZE_BYTES)%nat
  then
    if hotp_counter <? 0xFFFFFFFF
    then command (put_tlvs (base32_decode secret) (to_uint32 hotp_counter))
           Ins_Put put_reading m
    else (AssertionFailed hotp_counter_lt_0xFFFFFFFF, m)
  else (AssertionFailed decoded_length_le_HOTP_SECRET_SIZE_BYTES, m).
Proof.
  unfold set_secret_on_device_ccid, command, put_tlvs, counter_tlv,
    secret_blob, put_reading.
  unfold bind at 1, rassert at 1.
  destruct (List.length (base32_decode secret) + 2 <=? HOTP_SECRET_SIZE_BYTES)%nat;
    [|reflexivity].
  unfold bind at 1, rassert at 1.
  destruct (hotp_counter <? 0xFFFFFFFF); [|reflexivity].
  command_cases.
Qed.

End Commands.

(** ** Status words of the device commands *)

Section StatusWords.
Context {codes : ReturnCodes} {settings : Settings} {protocol : Protocol}
  {W : Type} {device : Collaborators W}.

Lemma exchanges_made_eq {A : Type} (c c' : M W A) (m : Machine W) :
  c m = c' m -> exchanges_made c m = exchanges_made c' m.
Proof.
  intros E. unfold exchanges_made, calls_made. now rewrite E.
Qed.

Lemma calls_made_eq {A : Type} (c c' : M W A) (m : Machine W) :
  c m = c' m -> calls_made c m = calls_made c' m.
Proof.
  intros E. unfold calls_made. now rewrite E.
Qed.

Lemma calls_made_nothing {A : Type} (c : M W A) (m : Machine W) o :
  c m = (o, m) -> calls_made c m = [].
Proof.
  intros E. unfold calls_made. rewrite E. apply drop_all.
Qed.


(** Provisioning makes an exchange only behind both assertions, and is
    then the put command. *)
Lemma set_secret_exchanged secret hotp_counter (m : Machine W) x :
  exchanges_made (set_secret_on_device_ccid secret hotp_counter) m = [x] ->
  (List.length (base32_decode secret) + 2 <= HOTP_SECRET_SIZE_BYTES)%nat /\
  hotp_counter < 0xFFFFFFFF /\
  set_secret_on_device_ccid secret hotp_counter m =
  command (put_tlvs (base32_decode secret) (to_uint32 hotp_counter))
    Ins_Put put_reading m.
Proof.
  intros E. pose proof (set_secret_on_device_ccid_command secret hotp_counter m) as C.
  destruct (Nat.leb_spec (List.length (base32_decode secret) + 2)
              HOTP_SECRET_SIZE_BYTES) as [L|L].
  - destruct (Z.ltb_spec hotp_counter 0xFFFFFFFF) as [L'|L'].
    + auto.
    + unfold exchanges_made in E.
      rewrite (calls_made_nothing _ _ _ C) in E. discriminate.
  - unfold exchanges_made in E.
    rewrite (calls_made_nothing _ _ _ C) in E. discriminate.
Qed.




End StatusWords.

(** ** Contract checks of provisioning *)

Section Provisioning.
Context {codes : ReturnCodes} {settings : Settings} {protocol : Protocol}
  {W : Type} {device : Collaborators W}.

(** An array overwritten from its start by at least as many bytes as it
    has holds the first of them. *)
Lemma list_inserts_0_take {A : Type} (k l : list A) :
  (List.length l <= List.length k)%nat ->
  list_inserts 0 k l = take (List.length l) k.
Proof.
  revert k. induction l as [|a l IH]; intros k L.
  - now rewrite list_inserts_nil.
  - destruct k as [|y k]; cbn [List.length] in L; [lia|].
    cbn [list_inserts]. rewrite list_inserts_cons.
    cbn [insert list_insert List.length take]. f_equal. apply IH. lia.
Qed.

(** C3 (the code departs from the claim). For every secret whose decoded
    bytes exceed [HOTP_SECRET_SIZE_BYTES], the store of line 106 does not
    stay inside [binary_secret_buf]: behind its two header bytes the array
    has room for [HOTP_SECRET_SIZE_BYTES] bytes, the decoder produces
    more, and of the decoded bytes only the first [HOTP_SECRET_SIZE_BYTES]
    are inside the array. The bounds check of line 107 is false for such a
    secret, but it stands after the store: the C function has left the
    defined behaviour before the check is reached. *)
Theorem set_secret_on_device_ccid_decoder_overruns
    (OTP_secret_base32 : list byte) :
  (HOTP_SECRET_SIZE_BYTES < List.length (base32_decode OTP_secret_base32))%nat ->
  decoder_write_in_bounds OTP_secret_base32 = false /\
  drop 2 (list_inserts 2 (base32_decode OTP_secret_base32)
            (zero_buffer (HOTP_SECRET_SIZE_BYTES + 2)))
  = take HOTP_SECRET_SIZE_BYTES (base32_decode OTP_secret_base32) /\
  (List.length (take HOTP_SECRET_SIZE_BYTES (base32_decode OTP_secret_base32))
   < List.length (base32_decode OTP_secret_base32))%nat /\
  (List.length (base32_decode OTP_secret_base32) + 2
   <=? HOTP_SECRET_SIZE_BYTES)%nat = false.
Proof.
  intros L. split; [|split; [|split]].
  - unfold decoder_write_in_bounds, zero_buffer. rewrite length_replicate.
    apply Nat.leb_gt. lia.
  - unfold zero_buffer. rewrite Nat.add_comm. cbn [Nat.add replicate].
    rewrite !list_inserts_cons. cbn [drop].
    rewrite list_inserts_0_take by (rewrite length_replicate; lia).
    now rewrite length_replicate.
  - rewrite length_take. lia.
  - apply Nat.leb_gt. lia.
Qed.

(** X13. A secret whose decoded bytes fit the array but number
    [HOTP_SECRET_SIZE_BYTES] - 1 or [HOTP_SECRET_SIZE_BYTES] is refused:
    the bounds check counts the two header bytes against
    [HOTP_SECRET_SIZE_BYTES], so [set_secret_on_device_ccid] stops at its
    first assertion with the machine as it was, no call made and no
    exchange. *)
Theorem set_secret_on_device_ccid_tight_secret
    (OTP_secret_base32 : list byte) (hotp_counter : Z) (m : Machine W) :
  (List.length (base32_decode OTP_secret_base32) <= HOTP_SECRET_SIZE_BYTES)%nat ->
  (HOTP_SECRET_SIZE_BYTES < List.length (base32_decode OTP_secret_base32) + 2)%nat ->
  decoder_write_in_bounds OTP_secret_base32 = true /\
  set_secret_on_device_ccid OTP_secret_base32 hotp_counter m =
  (AssertionFailed decoded_length_le_HOTP_SECRET_SIZE_BYTES, m) /\
  calls_made (set_secret_on_device_ccid OTP_secret_base32 hotp_counter) m = [] /\
  exchanges_made (set_secret_on_device_ccid OTP_secret_base32 hotp_counter) m = [].
Proof.
  intros Fits L.
  assert (set_secret_on_device_ccid OTP_secret_base32 hotp_counter m =
          (AssertionFailed decoded_length_le_HOTP_SECRET_SIZE_BYTES, m)) as E.
  { rewrite set_secret_on_device_ccid_command.
    destruct (Nat.leb_spec (List.length (base32_decode OTP_secret_base32) + 2)
                HOTP_SECRET_SIZE_BYTES); [lia|reflexivity]. }
  split.
  { unfold decoder_write_in_bounds, zero_buffer. rewrite length_replicate.
    apply Nat.leb_le. lia. }
  split; [exact E|]. unfold exchanges_made.
  rewrite (calls_made_nothing _ _ _ E). split; reflexivity.
Qed.


End Provisioning.

(** ** The password field *)

Section Password.
Context {codes : ReturnCodes} {settings : Settings} {protocol : Protocol}
  {W : Type} {device : Collaborators W}.

Lemma command_sends_password ins reading admin_PIN maxlen (m : Machine W) :
  sends_password (command (password_tlvs admin_PIN maxlen) ins reading)
    ins admin_PIN maxlen m.
Proof.
  unfold sends_password.
  rewrite calls_made_command, command_run. unfold command_calls, password_tlvs.
  do 6 eexists. split; [reflexivity|].
  unfold field_bytes, tlv_v_data. cbn [tlv_tag tlv_value tlv_length fst].
  rewrite strnlen_min.
  repeat split.
  rewrite length_take. pose proof (strlen_le_length admin_PIN). lia.
Qed.

(** C7. For every PIN, [set_pin_ccid] sends a password field of exactly
    min(len(PIN), [MAX_PIN_SIZE_CCID]) bytes and [authenticate_ccid] one of
    exactly min(len(PIN), 30) bytes: a longer PIN is cut to the maximum of
    the operation, and the request is sent all the same. *)
Theorem password_field_truncated (admin_PIN : list byte) (m : Machine W) :
  sends_password (set_pin_ccid admin_PIN) Ins_SetPIN admin_PIN
    MAX_PIN_SIZE_CCID m /\
  sends_password (authenticate_ccid admin_PIN) Ins_VerifyPIN admin_PIN 30 m.
Proof.
  split.
  - pose proof (command_sends_password Ins_SetPIN set_pin_reading admin_PIN
                  MAX_PIN_SIZE_CCID m) as S.
    unfold sends_password in *.
    now rewrite (calls_made_eq _ _ _ (set_pin_ccid_command admin_PIN m)),
      set_pin_ccid_command.
  - pose proof (command_sends_password Ins_VerifyPIN authenticate_reading
                  admin_PIN 30%nat m) as S.
    unfold sends_password in *.
    now rewrite (calls_made_eq _ _ _ (authenticate_ccid_command admin_PIN m)),
      authenticate_ccid_command.
Qed.

End Password.

(** ** Device status *)

Section Status.
Context {codes : ReturnCodes} {settings : Settings} {protocol : Protocol}
  {W : Type} {device : Collaborators W}.

(** The whole of [status_ccid] behind its four assertions. *)
Lemma status_ccid_run (h a f s : addr) (m : Machine W) :
  let x := select_exchange (Some h) m in
  status_ccid (Some h) (Some a) (Some f) (Some s) m =
  if negb (transport_status x =? RET_NO_ERROR)
  then (Returned (transport_status x), selected (Some h) m)
  else if (data_len (icc_result x) =? 0)%nat
          || negb (data_status_code (icc_result x) =? 0x9000)
  then (Returned RET_COMM_ERROR, selected (Some h) m)
  else if negb (present x Tag_Version)
  then (Returned RET_COMM_ERROR, extracted (Some h) a f s m)
  else if mem (extracted (Some h) a f s m) a =? -1
  then (Returned RET_NO_PIN_ATTEMPTS, extracted (Some h) a f s m)
  else (Returned RET_NO_ERROR, extracted (Some h) a f s m).
Proof.
  intros x. unfold status_ccid. cbn.
  fold (select_exchange (Some h) m). fold x.
  destruct (negb (transport_status x =? RET_NO_ERROR)); [reflexivity|].
  destruct ((data_len (icc_result x) =? 0)%nat
            || negb (data_status_code (icc_result x) =? 0x9000));
    [reflexivity|].
  unfold extracted, counter_written, serial_written, version_written,
    present, field.
  fold x. cbn.
  destruct (found Tag_PINCounter _); cbn;
    destruct (found Tag_SerialNumber _); cbn;
    destruct (found Tag_Version _); cbn;
    rewrite <- !app_assoc; cbn; try reflexivity;
    match goal with
    | |- context [if ?b then _ else _] => destruct b; reflexivity
    end.
Qed.

(** A null pointer stops [status_ccid] at its assertion. *)
Lemma status_ccid_null handle attempt_counter firmware_version serial_number
    (m : Machine W) :
  is_null handle || is_null attempt_counter || is_null firmware_version
  || is_null serial_number = true ->
  exists site,
    status_ccid handle attempt_counter firmware_version serial_number m =
    (AssertionFailed site, m).
Proof.
  destruct handle, attempt_counter, firmware_version, serial_number;
    cbn; intros E; try discriminate; eexists; reflexivity.
Qed.

Lemma calls_made_status (h a f s : addr) (m : Machine W) :
  let x := select_exchange (Some h) m in
  exists rest,
    calls_made (status_ccid (Some h) (Some a) (Some f) (Some s)) m =
    call_select (Some h) x :: rest /\
    omap exchange_of rest = [] /\
    (negb (transport_status x =? RET_NO_ERROR)
     || ((data_len (icc_result x) =? 0)%nat
         || negb (data_status_code (icc_result x) =? 0x9000)) = true ->
     rest = []).
Proof.
  intros x. unfold calls_made. rewrite status_ccid_run. fold x.
  destruct (negb (transport_status x =? RET_NO_ERROR)).
  { exists []. cbn. rewrite drop_app_length. auto. }
  destruct ((data_len (icc_result x) =? 0)%nat
            || negb (data_status_code (icc_result x) =? 0x9000)).
  { exists []. cbn. rewrite drop_app_length. auto. }
  exists [call_get_tlv Tag_PINCounter; call_get_tlv Tag_SerialNumber;
          call_get_tlv Tag_Version].
  destruct (negb (present x Tag_Version));
    [|destruct (mem (extracted (Some h) a f s m) a =? -1)];
    cbn; rewrite drop_app_length; repeat split; discriminate.
Qed.

(** [status_ccid] makes an exchange only with four pointers that are not
    null, and the exchange is that of the select request. *)
Lemma status_exchanged handle attempt_counter firmware_version serial_number
    (m : Machine W) (x : exchange W) :
  exchanges_made
    (status_ccid handle attempt_counter firmware_version serial_number) m
  = [x] ->
  exists h a f s,
    handle = Some h /\ attempt_counter = Some a /\
    firmware_version = Some f /\ serial_number = Some s /\
    x = select_exchange (Some h) m.
Proof.
  intros E.
  destruct (is_null handle || is_null attempt_counter
            || is_null firmware_version || is_null serial_number) eqn:N.
  - destruct (status_ccid_null _ _ _ _ m N) as [site R].
    unfold exchanges_made in E.
    rewrite (calls_made_nothing _ _ _ R) in E. discriminate.
  - destruct handle as [h|], attempt_counter as [a|],
      firmware_version as [f|], serial_number as [s|]; try discriminate.
    exists h, a, f, s. repeat split.
    destruct (calls_made_status h a f s m) as (rest & C & R & _).
    unfold exchanges_made in E. rewrite C in E. cbn in E.
    rewrite R in E. congruence.
Qed.

Lemma update_eq (mem : addr -> Z) a v : update mem a v a = v.
Proof. unfold update. now rewrite Nat.eqb_refl. Qed.

Lemma update_ne (mem : addr -> Z) a a' v :
  a' <> a -> update mem a v a' = mem a'.
Proof.
  intros N. unfold update. now destruct (Nat.eqb_spec a' a).
Qed.

(** C10. When the select exchange succeeds at the transport level but
    the response data is empty or the status word is not 0x9000,
    [status_ccid] returns [RET_COMM_ERROR] at once: the select request is
    the only call made (no field is looked for) and the caller's objects,
    the three outputs among them, are as they were. *)
Theorem status_ccid_bad_select_response
    (handle attempt_counter firmware_version serial_number : ptr)
    (m : Machine W) (x : exchange W) :
  exchanges_made
    (status_ccid handle attempt_counter firmware_version serial_number) m
  = [x] ->
  transport_status x = RET_NO_ERROR ->
  data_len (icc_result x) = 0%nat \/ data_status_code (icc_result x) <> 0x9000 ->
  fst (status_ccid handle attempt_counter firmware_version serial_number m) =
  Returned RET_COMM_ERROR /\
  calls_made
    (status_ccid handle attempt_counter firmware_version serial_number) m
  = [call_select handle x] /\
  mem (snd (status_ccid handle attempt_counter firmware_version
              serial_number m)) = mem m.
Proof.
  intros E T B.
  destruct (status_exchanged _ _ _ _ _ _ E) as (h & a & f & s & -> & -> & -> & -> & ->).
  set (x := select_exchange (Some h) m) in *.
  assert ((data_len (icc_result x) =? 0)%nat
          || negb (data_status_code (icc_result x) =? 0x9000) = true) as B'.
  { destruct B as [B|B].
    - rewrite B. reflexivity.
    - destruct (Z.eqb_spec (data_status_code (icc_result x)) 0x9000);
        [contradiction|]. now rewrite orb_true_r. }
  destruct (calls_made_status h a f s m) as (rest & C & _ & R).
  fold x in C, R. rewrite B', orb_true_r in R. rewrite (R eq_refl) in C.
  pose proof (status_ccid_run h a f s m) as Run. cbv zeta in Run.
  fold x in Run. rewrite T, Z.eqb_refl, B' in Run. cbn [negb] in Run.
  rewrite Run. cbn. auto.
Qed.

(** C5, amended. For every select response that is not empty and has the
    status word 0x9000, and three distinct output objects, the final
    result of [status_ccid] is: [RET_COMM_ERROR] with the firmware version
    written as zero when the version field is absent, whatever the other
    two fields are; otherwise [RET_NO_PIN_ATTEMPTS] with the attempt
    counter written as -1 when the attempt-counter field is absent;
    otherwise [RET_NO_ERROR]; and in the last two cases the attempt
    counter, the serial number (zero when its field is absent) and the
    firmware version are all written. The version is looked at before the
    attempt counter. *)
Theorem status_ccid_final_result
    (h a f s : addr) (m : Machine W) (x : exchange W) :
  a <> f -> a <> s -> f <> s ->
  exchanges_made (status_ccid (Some h) (Some a) (Some f) (Some s)) m = [x] ->
  transport_status x = RET_NO_ERROR ->
  data_len (icc_result x) <> 0%nat ->
  data_status_code (icc_result x) = 0x9000 ->
  let response := icc_result x in
  let counter := get_tlv (data response) (data_len response) Tag_PINCounter in
  let serial := get_tlv (data response) (data_len response) Tag_SerialNumber in
  let version := get_tlv (data response) (data_len response) Tag_Version in
  let result := fst (status_ccid (Some h) (Some a) (Some f) (Some s) m) in
  let out := mem (snd (status_ccid (Some h) (Some a) (Some f) (Some s) m)) in
  let serial_value :=
    if found Tag_SerialNumber serial
    then to_uint32 (be32toh_at (tlv_v_data (snd serial))) else 0 in
  let version_value := to_uint16 (be16toh_at (tlv_v_data (snd version))) in
  (found Tag_Version version = false ->
   result = Returned RET_COMM_ERROR /\ out f = 0) /\
  (found Tag_Version version = true ->
   found Tag_PINCounter counter = false ->
   result = Returned RET_NO_PIN_ATTEMPTS /\
   out a = -1 /\ out s = serial_value /\ out f = version_value) /\
  (found Tag_Version version = true ->
   found Tag_PINCounter counter = true ->
   result = Returned RET_NO_ERROR /\
   out a = byte_at (tlv_v_data (snd counter)) 0 /\
   out s = serial_value /\ out f = version_value).
Proof.
  intros Naf Nas Nfs E T L S response counter serial version result out
    serial_value version_value.
  destruct (status_exchanged _ _ _ _ _ _ E) as (h' & a' & f' & s' & Eh & _ & _ & _ & ->).
  injection Eh as <-.
  set (x := select_exchange (Some h) m) in *.
  pose proof (status_ccid_run h a f s m) as Run. cbv zeta in Run.
  fold x in Run. rewrite T, Z.eqb_refl, S in Run.
  destruct (Nat.eqb_spec (data_len (icc_result x)) 0) as [|_]; [contradiction|].
  cbn [negb orb Z.eqb Pos.eqb] in Run.
  assert (mem (extracted (Some h) a f s m) a = counter_written x) as Ma.
  { cbn. rewrite !update_ne by congruence. apply update_eq. }
  assert (mem (extracted (Some h) a f s m) s = serial_written x) as Ms.
  { cbn. rewrite update_ne by congruence. apply update_eq. }
  assert (mem (extracted (Some h) a f s m) f = version_written x) as Mf.
  { cbn. apply update_eq. }
  rewrite Ma in Run.
  unfold counter_written, serial_written, version_written, present, field in *.
  fold response in Ma, Ms, Mf, Run.
  fold counter in Ma, Run. fold serial in Ms. fold version in Mf, Run.
  fold serial_value in Ms. fold version_value in Mf.
  subst result out.
  repeat split; intros.
  all: repeat match goal with
         | P : found _ _ = _ |- _ => rewrite P in *; clear P
         end.
  all: cbn [negb] in Run.
  all: try (pose proof (byte_at_range (tlv_v_data (snd counter)) 0) as R;
            destruct (Z.eqb_spec (byte_at (tlv_v_data (snd counter)) 0) (-1)) as [Q|_];
            [lia|]).
  all: try rewrite Z.eqb_refl in Run.
  all: rewrite Run; cbn [fst snd]; assumption || reflexivity.
Qed.

End Status.

(** ** Transport failures *)

Section TransportFailure.
Context {codes : ReturnCodes} {settings : Settings} {protocol : Protocol}
  {W : Type} {device : Collaborators W}.

Lemma propagates_eq (c c' : M W Z) (m : Machine W) :
  c m = c' m ->
  propagates_transport_status c' m -> propagates_transport_status c m.
Proof.
  intros E P x. unfold exchanges_made, calls_made. rewrite E. apply P.
Qed.

Lemma propagates_stopped (c : M W Z) (m : Machine W) site :
  c m = (AssertionFailed site, m) -> propagates_transport_status c m.
Proof.
  intros E x. unfold exchanges_made.
  rewrite (calls_made_nothing _ _ _ E). intros [].
Qed.

Lemma command_propagates tlvs ins reading (m : Machine W) :
  propagates_transport_status (command tlvs ins reading) m.
Proof.
  intros x. rewrite exchanges_made_command, command_run.
  intros [<-|[]] N. cbn [fst snd after_command mem].
  destruct (Z.eqb_spec (transport_status (exchange_for m tlvs ins)) 0)
    as [|_]; [contradiction|].
  cbn [negb]. repeat split. congruence.
Qed.

Lemma status_ccid_propagates handle attempt_counter firmware_version
    serial_number (m : Machine W) :
  RET_NO_ERROR = 0 ->
  propagates_transport_status
    (status_ccid handle attempt_counter firmware_version serial_number) m.
Proof.
  intros Z0.
  destruct (is_null handle || is_null attempt_counter
            || is_null firmware_version || is_null serial_number) eqn:N.
  { destruct (status_ccid_null _ _ _ _ m N) as [site R].
    exact (propagates_stopped _ _ _ R). }
  destruct handle as [h|], attempt_counter as [a|],
    firmware_version as [f|], serial_number as [s|]; try discriminate.
  intros x I T.
  destruct (calls_made_status h a f s m) as (rest & C & R & _).
  assert (exchanges_made (status_ccid (Some h) (Some a) (Some f) (Some s)) m
          = [select_exchange (Some h) m]) as E.
  { unfold exchanges_made. rewrite C. cbn. now rewrite R. }
  rewrite E in I. destruct I as [<-|[]].
  split; [exact E|].
  pose proof (status_ccid_run h a f s m) as Run. cbv zeta in Run.
  rewrite Z0 in Run.
  destruct (Z.eqb_spec (transport_status (select_exchange (Some h) m)) 0)
    as [|_]; [contradiction|].
  cbn [negb] in Run. rewrite Run. cbn. repeat split. congruence.
Qed.

(** C8, amended. In each of the five operations a nonzero transport
    status is returned unchanged, after that single exchange and whatever
    the response holds; being nonzero it differs from a return value 0,
    and nothing more sets it apart from the operation's other return
    values. ([status_ccid] tests the status against [RET_NO_ERROR], taken
    to be 0 as the other four operations do.) *)
Theorem transport_status_returned_unchanged
    (admin_PIN OTP_secret_base32 : list byte) (hotp_counter code_to_verify : Z)
    (handle attempt_counter firmware_version serial_number : ptr)
    (m : Machine W) :
  RET_NO_ERROR = 0 ->
  propagates_transport_status (set_pin_ccid admin_PIN) m /\
  propagates_transport_status (authenticate_ccid admin_PIN) m /\
  propagates_transport_status
    (set_secret_on_device_ccid OTP_secret_base32 hotp_counter) m /\
  propagates_transport_status (verify_code_ccid code_to_verify) m /\
  propagates_transport_status
    (status_ccid handle attempt_counter firmware_version serial_number) m.
Proof.
  intros Z0. split; [|split; [|split; [|split]]].
  - exact (propagates_eq _ _ _ (set_pin_ccid_command admin_PIN m)
             (command_propagates _ _ _ m)).
  - exact (propagates_eq _ _ _ (authenticate_ccid_command admin_PIN m)
             (command_propagates _ _ _ m)).
  - pose proof (set_secret_on_device_ccid_command OTP_secret_base32
                  hotp_counter m) as C.
    destruct (List.length (base32_decode OTP_secret_base32) + 2
              <=? HOTP_SECRET_SIZE_BYTES)%nat;
      [destruct (hotp_counter <? 0xFFFFFFFF)|].
    + exact (propagates_eq _ _ _ C (command_propagates _ _ _ m)).
    + exact (propagates_stopped _ _ _ C).
    + exact (propagates_stopped _ _ _ C).
  - exact (propagates_eq _ _ _ (verify_code_ccid_command code_to_verify m)
             (command_propagates _ _ _ m)).
  - now apply status_ccid_propagates.
Qed.

End TransportFailure.

(** ** Buffer discipline *)

Section Buffers.
Context {codes : ReturnCodes} {settings : Settings} {protocol : Protocol}
  {W : Type} {device : Collaborators W}.

Lemma zeroed_all_zero (buf : list byte) : all_zero (zeroed buf).
Proof.
  unfold all_zero, zeroed, zero_buffer.
  induction (List.length buf) as [|n IH]; cbn; constructor; auto.
Qed.

Lemma zeroed_length (buf : list byte) :
  List.length (zeroed buf) = List.length buf.
Proof. unfold zeroed, zero_buffer. apply length_replicate. Qed.

Lemma zeroed_same_length (buf1 buf2 : list byte) :
  List.length buf1 = List.length buf2 -> zeroed buf1 = zeroed buf2.
Proof. unfold zeroed. now intros ->. Qed.

Lemma command_same_session tlvs ins reading (m1 m2 : Machine W) :
  same_session m1 m2 ->
  command tlvs ins reading m1 = command tlvs ins reading m2.
Proof.
  intros (Hh & Hi & Ho & Hw & Hm & Hl).
  rewrite !command_run.
  unfold after_command, command_calls, exchange_for, encoded_length, encoded,
    cleaned.
  cbn [ccid_buffer_out ccid_buffer_in mp_devhandle_ccid].
  rewrite (zeroed_same_length _ _ Hi), (zeroed_same_length _ _ Ho),
    Hh, Hw, Hm, Hl.
  reflexivity.
Qed.

Lemma command_clears_then_exchanges tlvs ins reading (m : Machine W) :
  clears_then_exchanges (command tlvs ins reading) m.
Proof.
  unfold clears_then_exchanges.
  rewrite calls_made_command. unfold command_calls.
  do 6 eexists. split; [reflexivity|].
  split; [apply zeroed_all_zero|]. split; [apply zeroed_all_zero|].
  split; [apply zeroed_length|]. split; [apply zeroed_length|].
  split; [apply zeroed_all_zero|]. split; [apply zeroed_length|].
  apply command_request_exchanged.
Qed.

Lemma command_blind_to_leftovers tlvs ins reading :
  blind_to_leftovers (command tlvs ins reading).
Proof.
  intros m1 m2 S. unfold calls_made.
  rewrite (command_same_session _ _ _ _ _ S).
  destruct S as (_ & _ & _ & _ & _ & ->). auto.
Qed.

Lemma clears_before_use_eq (c c' : M W Z) :
  (forall m, c m = c' m) ->
  (forall m, clears_then_exchanges c' m) -> blind_to_leftovers c' ->
  clears_before_use c.
Proof.
  intros E P Q. split.
  - intros m. unfold clears_then_exchanges, calls_made. rewrite E. apply P.
  - intros m1 m2 S. unfold calls_made. rewrite !E. now apply Q.
Qed.

(** C9. Each of the three operations without assertions (set PIN,
    authenticate, verify code) clears both buffers as its first call on
    every run, before the request is encoded and before the exchange; the
    encoder and the transport see all-zero buffers of unchanged size, the
    request exchanged is the one encoded there, and nothing the operation
    does depends on bytes a prior command left in the buffers. Provisioning
    does the same on every run that passes its two assertions; when the
    decoded bytes fit the array and an assertion fails it makes no call at
    all; and with the decoded bytes fitting the array it is as blind to
    what the buffers held. [clean_buffers] itself is taken from the
    specification. *)
Theorem buffers_cleared_before_use
    (admin_PIN OTP_secret_base32 : list byte)
    (hotp_counter code_to_verify : Z) :
  clears_before_use (set_pin_ccid admin_PIN) /\
  clears_before_use (authenticate_ccid admin_PIN) /\
  clears_before_use (verify_code_ccid code_to_verify) /\
  (forall m : Machine W,
     (List.length (base32_decode OTP_secret_base32) + 2
      <= HOTP_SECRET_SIZE_BYTES)%nat ->
     hotp_counter < 0xFFFFFFFF ->
     clears_then_exchanges
       (set_secret_on_device_ccid OTP_secret_base32 hotp_counter) m) /\
  (forall m : Machine W,
     (List.length (base32_decode OTP_secret_base32)
      <= HOTP_SECRET_SIZE_BYTES)%nat ->
     ~ ((List.length (base32_decode OTP_secret_base32) + 2
         <= HOTP_SECRET_SIZE_BYTES)%nat /\ hotp_counter < 0xFFFFFFFF) ->
     calls_made (set_secret_on_device_ccid OTP_secret_base32 hotp_counter) m
     = []) /\
  ((List.length (base32_decode OTP_secret_base32)
    <= HOTP_SECRET_SIZE_BYTES)%nat ->
   blind_to_leftovers
     (set_secret_on_device_ccid OTP_secret_base32 hotp_counter)).
Proof.
  split; [|split; [|split; [|split; [|split]]]].
  - exact (clears_before_use_eq _ _ (set_pin_ccid_command admin_PIN)
             (command_clears_then_exchanges _ _ _)
             (command_blind_to_leftovers _ _ _)).
  - exact (clears_before_use_eq _ _ (authenticate_ccid_command admin_PIN)
             (command_clears_then_exchanges _ _ _)
             (command_blind_to_leftovers _ _ _)).
  - exact (clears_before_use_eq _ _ (verify_code_ccid_command code_to_verify)
             (command_clears_then_exchanges _ _ _)
             (command_blind_to_leftovers _ _ _)).
  - intros m L L'.
    pose proof (set_secret_on_device_ccid_command OTP_secret_base32
                  hotp_counter m) as C.
    destruct (Nat.leb_spec (List.length (base32_decode OTP_secret_base32) + 2)
                HOTP_SECRET_SIZE_BYTES) as [_|F]; [|lia].
    destruct (Z.ltb_spec hotp_counter 0xFFFFFFFF) as [_|F]; [|lia].
    unfold clears_then_exchanges, calls_made. rewrite C.
    apply command_clears_then_exchanges.
  - intros m _ N.
    pose proof (set_secret_on_device_ccid_command OTP_secret_base32
                  hotp_counter m) as C.
    destruct (Nat.leb_spec (List.length (base32_decode OTP_secret_base32) + 2)
                HOTP_SECRET_SIZE_BYTES) as [L|_];
      [destruct (Z.ltb_spec hotp_counter 0xFFFFFFFF) as [L'|_]|].
    + exfalso. apply N. split; assumption.
    + exact (calls_made_nothing _ _ _ C).
    + exact (calls_made_nothing _ _ _ C).
  - intros _ m1 m2 S. unfold calls_made.
    rewrite !set_secret_on_device_ccid_command.
    destruct (List.length (base32_decode OTP_secret_base32) + 2
              <=? HOTP_SECRET_SIZE_BYTES)%nat;
      [destruct (hotp_counter <? 0xFFFFFFFF)|].
    + now apply command_blind_to_leftovers.
    + destruct S as (_ & _ & _ & Hw & _ & _). cbn. now rewrite !drop_all, Hw.
    + destruct S as (_ & _ & _ & Hw & _ & _). cbn. now rewrite !drop_all, Hw.
Qed.

End Buffers.

(** * Further properties of the operations *)

(** ** What success means *)

Section Success.
Context {codes : ReturnCodes} {settings : Settings} {protocol : Protocol}
  {W : Type} {device : Collaborators W}.

(** What a command returns, by its single exchange. *)
Lemma command_outcome tlvs ins reading (m : Machine W) :
  exchanges_made (command tlvs ins reading) m = [exchange_for m tlvs ins] /\
  fst (command tlvs ins reading m) =
  Returned
    (if negb (transport_status (exchange_for m tlvs ins) =? 0)
     then transport_status (exchange_for m tlvs ins)
     else reading (icc_result (exchange_for m tlvs ins))).
Proof.
  split; [apply exchanges_made_command | now rewrite command_run].
Qed.


(** X2. With the success codes [RET_NO_ERROR] and [RET_VALIDATION_PASSED]
    being 0 and the failure codes not, each of the four device commands
    returns its success code only after an exchange whose transport status
    is 0 and whose status word is 0x9000: neither a transport failure nor
    any other answer of the device is ever reported as success. *)
Theorem success_only_after_0x9000
    (admin_PIN OTP_secret_base32 : list byte) (hotp_counter code_to_verify : Z)
    (m : Machine W) :
  RET_NO_ERROR = 0 -> RET_VALIDATION_PASSED = 0 ->
  RET_WRONG_PIN <> 0 -> RET_NO_PIN_ATTEMPTS <> 0 ->
  RET_SECURITY_STATUS_NOT_SATISFIED <> 0 -> RET_VALIDATION_FAILED <> 0 ->
  RET_SLOT_NOT_CONFIGURED <> 0 ->
  let succeeded (c : M W Z) (code : Z) :=
    fst (c m) = Returned code ->
    exists x, exchanges_made c m = [x] /\ transport_status x = 0 /\
              data_status_code (icc_result x) = 0x9000 in
  succeeded (set_pin_ccid admin_PIN) 0 /\
  succeeded (authenticate_ccid admin_PIN) RET_NO_ERROR /\
  succeeded (set_secret_on_device_ccid OTP_secret_base32 hotp_counter)
    RET_NO_ERROR /\
  succeeded (verify_code_ccid code_to_verify) RET_VALIDATION_PASSED.
Proof.
  intros N0 V0 D1 D2 D3 D4 D5 succeeded. subst succeeded. cbv beta.
  assert (forall tlvs ins reading code,
             code = 0 ->
             (forall icc, reading icc = 0 -> data_status_code icc = 0x9000) ->
             fst (command tlvs ins reading m) = Returned code ->
             exists x, exchanges_made (command tlvs ins reading) m = [x] /\
                       transport_status x = 0 /\
                       data_status_code (icc_result x) = 0x9000) as K.
  { intros tlvs ins reading code -> R.
    destruct (command_outcome tlvs ins reading m) as [E ->].
    intros [= Q]. exists (exchange_for m tlvs ins). split; [exact E|].
    destruct (Z.eqb_spec (transport_status (exchange_for m tlvs ins)) 0)
      as [T|T]; cbn [negb] in Q; [auto | contradiction]. }
  split; [|split; [|split]].
  - rewrite (exchanges_made_eq _ _ _ (set_pin_ccid_command admin_PIN m)),
      set_pin_ccid_command.
    apply K; [reflexivity|]. intros icc. unfold set_pin_reading.
    destruct (Z.eqb_spec (data_status_code icc) 0x9000); cbn [negb];
      [auto | discriminate].
  - rewrite (exchanges_made_eq _ _ _ (authenticate_ccid_command admin_PIN m)),
      authenticate_ccid_command.
    apply K; [exact N0|]. intros icc. unfold authenticate_reading.
    destruct (data_status_code icc =? 0x6300); [contradiction|].
    destruct (Z.eqb_spec (data_status_code icc) 0x9000); cbn [negb];
      [auto | discriminate].
  - pose proof (set_secret_on_device_ccid_command OTP_secret_base32
                  hotp_counter m) as C.
    destruct (List.length (base32_decode OTP_secret_base32) + 2
              <=? HOTP_SECRET_SIZE_BYTES)%nat;
      [destruct (hotp_counter <? 0xFFFFFFFF)|];
      try (rewrite C; discriminate).
    rewrite (exchanges_made_eq _ _ _ C), C.
    apply K; [exact N0|]. intros icc. unfold put_reading.
    destruct (data_status_code icc =? 0x6a82); [contradiction|].
    destruct (data_status_code icc =? 0x6982); [contradiction|].
    destruct (Z.eqb_spec (data_status_code icc) 0x9000); cbn [negb];
      [auto | contradiction].
  - rewrite (exchanges_made_eq _ _ _ (verify_code_ccid_command code_to_verify m)),
      verify_code_ccid_command.
    apply K; [exact V0|]. intros icc. unfold verify_reading.
    destruct (data_status_code icc =? 0x6A82); [contradiction|].
    destruct (Z.eqb_spec (data_status_code icc) 0x9000); cbn [negb];
      [auto | contradiction].
Qed.

End Success.

(** ** More on the status query *)

Section StatusMore.
Context {codes : ReturnCodes} {settings : Settings} {protocol : Protocol}
  {W : Type} {device : Collaborators W}.

(** The attempt counter as the final test reads it back. *)
Lemma extracted_counter (h a f s : addr) (m : Machine W) :
  a <> f -> a <> s ->
  mem (extracted (Some h) a f s m) a =
  counter_written (select_exchange (Some h) m).
Proof.
  intros Naf Nas. cbn. rewrite !update_ne by congruence. apply update_eq.
Qed.

Lemma counter_written_sentinel (x : exchange W) :
  counter_written x = -1 <-> present x Tag_PINCounter = false.
Proof.
  unfold counter_written. destruct (present x Tag_PINCounter).
  - pose proof (byte_at_range (tlv_v_data (snd (field x Tag_PINCounter))) 0).
    split; [lia | discriminate].
  - split; reflexivity.
Qed.

(** X3. With [RET_COMM_ERROR] and [RET_NO_PIN_ATTEMPTS] different from
    [RET_NO_ERROR] and the attempt counter an object of its own,
    [status_ccid] returns [RET_NO_ERROR] exactly when the select exchange
    succeeded, its response is not empty and carries 0x9000, and both the
    version field and the attempt-counter field were found. *)
Theorem status_ccid_success_iff
    (h a f s : addr) (m : Machine W) (x : exchange W) :
  a <> f -> a <> s ->
  RET_COMM_ERROR <> RET_NO_ERROR -> RET_NO_PIN_ATTEMPTS <> RET_NO_ERROR ->
  exchanges_made (status_ccid (Some h) (Some a) (Some f) (Some s)) m = [x] ->
  let response := icc_result x in
  fst (status_ccid (Some h) (Some a) (Some f) (Some s) m)
  = Returned RET_NO_ERROR <->
  transport_status x = RET_NO_ERROR /\
  data_len response <> 0%nat /\
  data_status_code response = 0x9000 /\
  found Tag_Version
    (get_tlv (data response) (data_len response) Tag_Version) = true /\
  found Tag_PINCounter
    (get_tlv (data response) (data_len response) Tag_PINCounter) = true.
Proof.
  intros Naf Nas D1 D2 E response. subst response.
  destruct (status_exchanged _ _ _ _ _ _ E)
    as (h' & a' & f' & s' & Eh & _ & _ & _ & ->).
  injection Eh as <-.
  pose proof (status_ccid_run h a f s m) as Run. cbv zeta in Run.
  rewrite (extracted_counter h a f s m Naf Nas) in Run.
  pose proof (counter_written_sentinel (select_exchange (Some h) m)) as Sn.
  unfold present, field in *.
  set (x := select_exchange (Some h) m) in *.
  rewrite Run. clear Run.
  destruct (Z.eqb_spec (transport_status x) RET_NO_ERROR) as [T|T]; cbn [negb].
  2:{ cbn [fst]. split; [intros [= Q]; contradiction | tauto]. }
  destruct (Nat.eqb_spec (data_len (icc_result x)) 0) as [L|L]; cbn [orb].
  { cbn [fst]. split; [intros [= Q]; contradiction | tauto]. }
  destruct (Z.eqb_spec (data_status_code (icc_result x)) 0x9000) as [S|S];
    cbn [negb].
  2:{ cbn [fst]. split; [intros [= Q]; contradiction | tauto]. }
  destruct (found Tag_Version _); cbn [negb].
  2:{ cbn [fst]. split; [intros [= Q]; contradiction | intuition discriminate]. }
  destruct (Z.eqb_spec (counter_written x) (-1)) as [C|C]; cbn [fst].
  - apply Sn in C. rewrite C.
    split; [intros [= Q]; contradiction | intuition discriminate].
  - destruct (found Tag_PINCounter _).
    + tauto.
    + exfalso. apply C, Sn. reflexivity.
Qed.

(** X4. When one of its four pointers is null, [status_ccid] stops at the
    assertion of the first null pointer in the order handle, attempt
    counter, firmware version, serial number: the select request is not
    sent, no call is made and the machine is as it was. *)
Theorem status_ccid_null_pointer
    (handle attempt_counter firmware_version serial_number : ptr)
    (m : Machine W) :
  is_null handle || is_null attempt_counter || is_null firmware_version
  || is_null serial_number = true ->
  status_ccid handle attempt_counter firmware_version serial_number m =
  (AssertionFailed
     (if is_null handle then handle_not_NULL
      else if is_null attempt_counter then attempt_counter_not_NULL
      else if is_null firmware_version then firmware_version_not_NULL
      else serial_number_not_NULL), m) /\
  calls_made
    (status_ccid handle attempt_counter firmware_version serial_number) m = [].
Proof.
  intros N.
  assert (status_ccid handle attempt_counter firmware_version serial_number m =
          (AssertionFailed
             (if is_null handle then handle_not_NULL
              else if is_null attempt_counter then attempt_counter_not_NULL
              else if is_null firmware_version then firmware_version_not_NULL
              else serial_number_not_NULL), m)) as E.
  { destruct handle, attempt_counter, firmware_version, serial_number;
      try discriminate; reflexivity. }
  split; [exact E | exact (calls_made_nothing _ _ _ E)].
Qed.

(** X5. [status_ccid] writes through its three output pointers only: every
    other object of the caller keeps its value, and the device structure
    with its session buffers is not touched, whatever the response and
    whatever the result. *)
Theorem status_ccid_frame
    (handle attempt_counter firmware_version serial_number : ptr)
    (m : Machine W) (other : addr) :
  Some other <> attempt_counter -> Some other <> firmware_version ->
  Some other <> serial_number ->
  mem (snd (status_ccid handle attempt_counter firmware_version
              serial_number m)) other = mem m other /\
  dev (snd (status_ccid handle attempt_counter firmware_version
              serial_number m)) = dev m.
Proof.
  intros Na Nf Ns.
  destruct (is_null handle || is_null attempt_counter
            || is_null firmware_version || is_null serial_number) eqn:N.
  { destruct (status_ccid_null _ _ _ _ m N) as [site ->]. auto. }
  destruct handle as [h|], attempt_counter as [a|],
    firmware_version as [f|], serial_number as [s|]; try discriminate.
  pose proof (status_ccid_run h a f s m) as Run. cbv zeta in Run.
  rewrite Run.
  repeat match goal with
         | |- context [if ?b then _ else _] => destruct b
         end; cbn [snd selected extracted mem dev]; split; try reflexivity;
    rewrite !update_ne by congruence; reflexivity.
Qed.

(** X6. When the select response passes the first check but holds no
    version field, [status_ccid] has by then looked up all three fields in
    the order attempt counter, serial number, version, and has already
    written the attempt counter (its byte, or -1) and the serial number
    (its value, or 0): the two outputs are overwritten although the call
    fails. *)
Theorem status_ccid_outputs_before_version_check
    (h a f s : addr) (m : Machine W) (x : exchange W) :
  a <> f -> a <> s -> f <> s ->
  exchanges_made (status_ccid (Some h) (Some a) (Some f) (Some s)) m = [x] ->
  transport_status x = RET_NO_ERROR ->
  data_len (icc_result x) <> 0%nat ->
  data_status_code (icc_result x) = 0x9000 ->
  let response := icc_result x in
  let counter := get_tlv (data response) (data_len response) Tag_PINCounter in
  let serial := get_tlv (data response) (data_len response) Tag_SerialNumber in
  let version := get_tlv (data response) (data_len response) Tag_Version in
  let out := mem (snd (status_ccid (Some h) (Some a) (Some f) (Some s) m)) in
  found Tag_Version version = false ->
  calls_made (status_ccid (Some h) (Some a) (Some f) (Some s)) m =
  [ call_select (Some h) x; call_get_tlv Tag_PINCounter;
    call_get_tlv Tag_SerialNumber; call_get_tlv Tag_Version ] /\
  out a = (if found Tag_PINCounter counter
           then byte_at (tlv_v_data (snd counter)) 0 else -1) /\
  out s = (if found Tag_SerialNumber serial
           then to_uint32 (be32toh_at (tlv_v_data (snd serial))) else 0).
Proof.
  intros Naf Nas Nfs E T L S response counter serial version out V.
  subst out.
  destruct (status_exchanged _ _ _ _ _ _ E)
    as (h' & a' & f' & s' & Eh & _ & _ & _ & ->).
  injection Eh as <-.
  pose proof (status_ccid_run h a f s m) as Run. cbv zeta in Run.
  set (x := select_exchange (Some h) m) in *.
  rewrite T, Z.eqb_refl, S in Run.
  destruct (Nat.eqb_spec (data_len (icc_result x)) 0) as [|_]; [contradiction|].
  cbn [negb orb Z.eqb Pos.eqb] in Run.
  unfold present, field in Run. fold response in Run. fold version in Run.
  rewrite V in Run. cbn [negb] in Run.
  unfold calls_made. rewrite Run. cbn [snd fst extracted log mem].
  fold x. rewrite drop_app_length.
  split; [reflexivity|].
  rewrite update_ne by congruence.
  rewrite update_ne by congruence. rewrite update_eq.
  rewrite update_ne by congruence. rewrite update_eq.
  split; reflexivity.
Qed.

End StatusMore.

(** ** The numbers the status query reports *)

Lemma lor_shiftl_add (a b k : Z) :
  0 <= k -> 0 <= b < 2 ^ k -> Z.lor (Z.shiftl a k) b = a * 2 ^ k + b.
Proof.
  intros Hk Hb. rewrite Z.shiftl_mul_pow2 by lia.
  assert (Z.land (a * 2 ^ k) b = 0) as D.
  { apply Z.bits_inj'. intros n Hn. rewrite Z.land_spec, Z.bits_0.
    destruct (Z.lt_ge_cases n k) as [Lt|Ge].
    - now rewrite Z.mul_pow2_bits_low by lia.
    - destruct (Z.eq_dec b 0) as [->|Nz].
      + now rewrite Z.bits_0, andb_false_r.
      + rewrite (Z.bits_above_log2 b n); [apply andb_false_r | lia |].
        apply Z.lt_le_trans with k; [apply Z.log2_lt_pow2; lia | lia]. }
  rewrite <- Z.lxor_lor by exact D. symmetry. now apply Z.add_nocarry_lxor.
Qed.

Lemma be16toh_at_value (p : list byte) :
  be16toh_at p = byte_at p 0 * 2 ^ 8 + byte_at p 1.
Proof.
  unfold be16toh_at. pose proof (byte_at_range p 1).
  apply lor_shiftl_add; lia.
Qed.

Lemma be32toh_at_value (p : list byte) :
  be32toh_at p =
  byte_at p 0 * 2 ^ 24 + byte_at p 1 * 2 ^ 16 + byte_at p 2 * 2 ^ 8
  + byte_at p 3.
Proof.
  unfold be32toh_at.
  pose proof (byte_at_range p 1). pose proof (byte_at_range p 2).
  pose proof (byte_at_range p 3).
  rewrite (lor_shiftl_add (byte_at p 2) (byte_at p 3) 8) by lia.
  rewrite (lor_shiftl_add (byte_at p 1) _ 16) by lia.
  rewrite (lor_shiftl_add (byte_at p 0) _ 24) by lia.
  lia.
Qed.

Section StatusValues.
Context {codes : ReturnCodes} {settings : Settings} {protocol : Protocol}
  {W : Type} {device : Collaborators W}.

(** The three outputs once the select response passed the first check. *)
Lemma status_ccid_written (h a f s : addr) (m : Machine W) :
  a <> f -> a <> s -> f <> s ->
  let x := select_exchange (Some h) m in
  transport_status x = RET_NO_ERROR ->
  data_len (icc_result x) <> 0%nat ->
  data_status_code (icc_result x) = 0x9000 ->
  let out := mem (snd (status_ccid (Some h) (Some a) (Some f) (Some s) m)) in
  out a = counter_written x /\ out s = serial_written x /\
  out f = version_written x.
Proof.
  intros Naf Nas Nfs x T L S out. subst out.
  pose proof (status_ccid_run h a f s m) as Run. cbv zeta in Run.
  fold x in Run. rewrite T, Z.eqb_refl, S in Run.
  destruct (Nat.eqb_spec (data_len (icc_result x)) 0) as [|_]; [contradiction|].
  cbn [negb orb Z.eqb Pos.eqb] in Run.
  assert (mem (extracted (Some h) a f s m) a = counter_written x
          /\ mem (extracted (Some h) a f s m) s = serial_written x
          /\ mem (extracted (Some h) a f s m) f = version_written x) as Q.
  { cbn. fold x. repeat split.
    - rewrite !update_ne by congruence. apply update_eq.
    - rewrite update_ne by congruence. apply update_eq.
    - apply update_eq. }
  rewrite Run.
  destruct (negb (present x Tag_Version)); [exact Q|].
  destruct (mem (extracted (Some h) a f s m) a =? -1); exact Q.
Qed.

(** X7. Once the select response passed the first check, the numbers
    [status_ccid] writes are read most significant byte first and fit
    their types: a serial field gives
    b0 * 2^24 + b1 * 2^16 + b2 * 2^8 + b3, below 2^32; a version field
    gives b0 * 2^8 + b1, below 2^16; an attempt-counter field gives its
    first byte, from 0 to 255, so that the sentinel -1 is never the value
    of a field that was found. *)
Theorem status_ccid_numbers
    (h a f s : addr) (m : Machine W) (x : exchange W) :
  a <> f -> a <> s -> f <> s ->
  exchanges_made (status_ccid (Some h) (Some a) (Some f) (Some s)) m = [x] ->
  transport_status x = RET_NO_ERROR ->
  data_len (icc_result x) <> 0%nat ->
  data_status_code (icc_result x) = 0x9000 ->
  let response := icc_result x in
  let counter := get_tlv (data response) (data_len response) Tag_PINCounter in
  let serial := get_tlv (data response) (data_len response) Tag_SerialNumber in
  let version := get_tlv (data response) (data_len response) Tag_Version in
  let out := mem (snd (status_ccid (Some h) (Some a) (Some f) (Some s) m)) in
  (found Tag_PINCounter counter = true ->
   out a = byte_at (tlv_v_data (snd counter)) 0 /\ 0 <= out a <= 255) /\
  (found Tag_SerialNumber serial = true ->
   out s = byte_at (tlv_v_data (snd serial)) 0 * 2 ^ 24
           + byte_at (tlv_v_data (snd serial)) 1 * 2 ^ 16
           + byte_at (tlv_v_data (snd serial)) 2 * 2 ^ 8
           + byte_at (tlv_v_data (snd serial)) 3 /\
   0 <= out s < 2 ^ 32) /\
  (found Tag_Version version = true ->
   out f = byte_at (tlv_v_data (snd version)) 0 * 2 ^ 8
           + byte_at (tlv_v_data (snd version)) 1 /\
   0 <= out f < 2 ^ 16).
Proof.
  intros Naf Nas Nfs E T L S response counter serial version out.
  destruct (status_exchanged _ _ _ _ _ _ E)
    as (h' & a' & f' & s' & Eh & _ & _ & _ & ->).
  injection Eh as <-.
  destruct (status_ccid_written h a f s m Naf Nas Nfs T L S) as (Qa & Qs & Qf).
  subst out. rewrite Qa, Qs, Qf.
  unfold counter_written, serial_written, version_written, present, field.
  fold response. fold counter. fold serial. fold version.
  split; [|split]; intros ->.
  - pose proof (byte_at_range (tlv_v_data (snd counter)) 0). split; [reflexivity|lia].
  - rewrite be32toh_at_value. unfold to_uint32.
    pose proof (byte_at_range (tlv_v_data (snd serial)) 0).
    pose proof (byte_at_range (tlv_v_data (snd serial)) 1).
    pose proof (byte_at_range (tlv_v_data (snd serial)) 2).
    pose proof (byte_at_range (tlv_v_data (snd serial)) 3).
    rewrite Z.mod_small by lia. split; [reflexivity|lia].
  - rewrite be16toh_at_value. unfold to_uint16.
    pose proof (byte_at_range (tlv_v_data (snd version)) 0).
    pose proof (byte_at_range (tlv_v_data (snd version)) 1).
    rewrite Z.mod_small by lia. split; [reflexivity|lia].
Qed.

End StatusValues.

(** ** Requests *)

Section Requests.
Context {codes : ReturnCodes} {settings : Settings} {protocol : Protocol}
  {W : Type} {device : Collaborators W}.


(** The array [binary_secret_buf] when the decoded bytes fit: the two
    header bytes, the decoded bytes, then the zeros left. *)
Lemma secret_blob_layout (decoded : list byte) :
  (List.length decoded <= HOTP_SECRET_SIZE_BYTES)%nat ->
  secret_blob decoded =
  byte_of_Z (Z.lor Kind_HotpReverse Algo_Sha1)
  :: byte_of_Z (if HOTP_CODE_USE_8_DIGITS then 8 else 6)
  :: decoded
  ++ zero_buffer (HOTP_SECRET_SIZE_BYTES - List.length decoded).
Proof.
  intros L. unfold secret_blob, zero_buffer.
  rewrite Nat.add_comm. cbn [Nat.add replicate].
  rewrite !list_inserts_cons. cbn [insert list_insert].
  replace (replicate HOTP_SECRET_SIZE_BYTES x00)
    with (replicate (List.length decoded) x00
          ++ replicate (HOTP_SECRET_SIZE_BYTES - List.length decoded) x00).
  - rewrite list_inserts_0_r by (now rewrite length_replicate). reflexivity.
  - rewrite <- replicate_add. f_equal. lia.
Qed.

(** X9. When provisioning reaches the device, the key field it encodes
    has the tag [Tag_Key] and designates exactly the kind-and-algorithm
    byte, the digit-count byte (8 or 6) and the decoded secret, nothing of
    the zero padding of the array; its length is the decoded length plus
    two and is at most [HOTP_SECRET_SIZE_BYTES], so the decoded secret
    itself has at most [HOTP_SECRET_SIZE_BYTES] - 2 bytes. *)
Theorem set_secret_on_device_ccid_key_field
    (OTP_secret_base32 : list byte) (hotp_counter : Z)
    (m : Machine W) (x : exchange W) :
  exchanges_made (set_secret_on_device_ccid OTP_secret_base32 hotp_counter) m
  = [x] ->
  exists slot key properties counter d d' n,
    calls_made (set_secret_on_device_ccid OTP_secret_base32 hotp_counter) m =
    [ call_clean_buffers;
      call_pack Ins_Put [slot; key; properties; counter] d;
      call_process_single d' n x ] /\
    tlv_tag key = Tag_Key /\
    tlv_length key = (List.length (base32_decode OTP_secret_base32) + 2)%nat /\
    (tlv_length key <= HOTP_SECRET_SIZE_BYTES)%nat /\
    field_bytes key =
    byte_of_Z (Z.lor Kind_HotpReverse Algo_Sha1)
    :: byte_of_Z (if HOTP_CODE_USE_8_DIGITS then 8 else 6)
    :: base32_decode OTP_secret_base32.
Proof.
  intros E.
  destruct (set_secret_exchanged _ _ _ _ E) as (L & _ & C).
  rewrite (exchanges_made_eq _ _ _ C), exchanges_made_command in E.
  injection E as <-.
  rewrite (calls_made_eq _ _ _ C), calls_made_command.
  unfold command_calls, put_tlvs.
  do 7 eexists. split; [reflexivity|].
  cbn [tlv_tag tlv_length]. repeat split; [exact L|].
  unfold field_bytes, tlv_v_data. cbn [tlv_length tlv_value].
  rewrite secret_blob_layout by lia.
  rewrite Nat.add_comm. cbn [Nat.add take]. f_equal. f_equal.
  apply take_app_length.
Qed.

(** X12. Provisioning and code verification address the same credential
    slot: when provisioning reaches the device, the first field of its
    request and the first field of a verification request are the same
    [Tag_CredentialId] field, designating the first [SLOT_NAME_LEN] bytes
    of [SLOT_NAME]. *)
Theorem provisioning_and_verification_slot
    (OTP_secret_base32 : list byte) (hotp_counter code_to_verify : Z)
    (m : Machine W) (x : exchange W) :
  exchanges_made (set_secret_on_device_ccid OTP_secret_base32 hotp_counter) m
  = [x] ->
  exists slot put_rest verify_rest d1 d1' n1 d2 d2' n2 x2,
    calls_made (set_secret_on_device_ccid OTP_secret_base32 hotp_counter) m =
    [ call_clean_buffers; call_pack Ins_Put (slot :: put_rest) d1;
      call_process_single d1' n1 x ] /\
    calls_made (verify_code_ccid code_to_verify) m =
    [ call_clean_buffers; call_pack Ins_VerifyCode (slot :: verify_rest) d2;
      call_process_single d2' n2 x2 ] /\
    tlv_tag slot = Tag_CredentialId /\
    field_bytes slot = take SLOT_NAME_LEN SLOT_NAME.
Proof.
  intros E.
  destruct (set_secret_exchanged _ _ _ _ E) as (_ & _ & C).
  rewrite (exchanges_made_eq _ _ _ C), exchanges_made_command in E.
  injection E as <-.
  rewrite (calls_made_eq _ _ _ C),
    (calls_made_eq _ _ _ (verify_code_ccid_command code_to_verify m)),
    !calls_made_command.
  unfold command_calls, put_tlvs, verify_tlvs.
  do 10 eexists. repeat split.
Qed.

End Requests.

(** ** The PIN as a C string *)

Lemma strnlen_no_nul (s : list byte) (maxlen : nat) :
  Forall (fun b => b <> x00) (take (strnlen s maxlen) s).
Proof.
  revert s. induction maxlen as [|n IH]; intros s; [constructor|].
  destruct s as [|c s']; cbn [strnlen]; [constructor|].
  destruct c; cbn [is_nul take]; try constructor; try discriminate; apply IH.
Qed.

Lemma strlen_before_nul (before after : list byte) :
  Forall (fun b => b <> x00) before ->
  strlen (before ++ x00 :: after) = List.length before.
Proof.
  induction 1 as [|c before Hc _ IH]; [reflexivity|].
  cbn [app strlen List.length]. rewrite IH.
  destruct c; try reflexivity. contradiction.
Qed.

Section PinString.
Context {codes : ReturnCodes} {settings : Settings} {protocol : Protocol}
  {W : Type} {device : Collaborators W}.

Lemma command_password_stops_at_nul ins reading admin_PIN maxlen
    (m : Machine W) :
  password_stops_at_nul (command (password_tlvs admin_PIN maxlen) ins reading)
    ins admin_PIN maxlen m.
Proof.
  unfold password_stops_at_nul.
  rewrite calls_made_command. unfold command_calls, password_tlvs.
  do 5 eexists. split; [reflexivity|].
  unfold field_bytes, tlv_v_data. cbn [tlv_value tlv_length].
  split; [apply strnlen_no_nul|].
  intros before after -> NoNul.
  rewrite strnlen_min, strlen_before_nul by exact NoNul.
  destruct (Nat.le_ge_cases (List.length before) maxlen) as [Le|Ge].
  - rewrite Nat.min_l by exact Le.
    rewrite take_app_length. symmetry. now apply take_ge.
  - rewrite Nat.min_r by exact Ge. now apply take_app_le.
Qed.

(** X10. The password field [set_pin_ccid] and [authenticate_ccid] send
    never holds a NUL byte, and a PIN buffer is read as a C string: when
    it has a NUL byte, the field is cut from the bytes before the first
    NUL alone (at most the maximum of the operation), and nothing from the
    NUL on is sent. *)
Theorem password_field_stops_at_nul (admin_PIN : list byte) (m : Machine W) :
  password_stops_at_nul (set_pin_ccid admin_PIN) Ins_SetPIN admin_PIN
    MAX_PIN_SIZE_CCID m /\
  password_stops_at_nul (authenticate_ccid admin_PIN) Ins_VerifyPIN admin_PIN
    30 m.
Proof.
  split.
  - pose proof (command_password_stops_at_nul Ins_SetPIN set_pin_reading
                  admin_PIN MAX_PIN_SIZE_CCID m) as S.
    unfold password_stops_at_nul in *.
    now rewrite (calls_made_eq _ _ _ (set_pin_ccid_command admin_PIN m)).
  - pose proof (command_password_stops_at_nul Ins_VerifyPIN
                  authenticate_reading admin_PIN 30%nat m) as S.
    unfold password_stops_at_nul in *.
    now rewrite (calls_made_eq _ _ _ (authenticate_ccid_command admin_PIN m)).
Qed.

(** X11. For one and the same PIN, [set_pin_ccid] and [authenticate_ccid]
    encode the same password field exactly when the two maxima cut the
    PIN alike, min(len, [MAX_PIN_SIZE_CCID]) = min(len, 30): a PIN of at
    most 30 bytes that set PIN takes whole is presented whole, and a
    longer one that set PIN takes beyond its 30th byte is presented
    shorter than it was set. *)
Theorem set_pin_and_authenticate_fields
    (admin_PIN : list byte) (m : Machine W) :
  exists set_field auth_field d1 d1' n1 x1 d2 d2' n2 x2,
    calls_made (set_pin_ccid admin_PIN) m =
    [ call_clean_buffers; call_pack Ins_SetPIN [set_field] d1;
      call_process_single d1' n1 x1 ] /\
    calls_made (authenticate_ccid admin_PIN) m =
    [ call_clean_buffers; call_pack Ins_VerifyPIN [auth_field] d2;
      call_process_single d2' n2 x2 ] /\
    (set_field = auth_field <->
     Nat.min (strlen admin_PIN) MAX_PIN_SIZE_CCID
     = Nat.min (strlen admin_PIN) 30) /\
    (field_bytes set_field = field_bytes auth_field <->
     Nat.min (strlen admin_PIN) MAX_PIN_SIZE_CCID
     = Nat.min (strlen admin_PIN) 30).
Proof.
  rewrite (calls_made_eq _ _ _ (set_pin_ccid_command admin_PIN m)),
    (calls_made_eq _ _ _ (authenticate_ccid_command admin_PIN m)),
    !calls_made_command.
  unfold command_calls, password_tlvs.
  do 10 eexists. split; [reflexivity|]. split; [reflexivity|].
  unfold field_bytes, tlv_v_data. cbn [tlv_value tlv_length].
  rewrite !strnlen_min.
  pose proof (strlen_le_length admin_PIN) as L.
  split; split.
  - intros [= Q]. exact Q.
  - intros ->. reflexivity.
  - intros Q. apply (f_equal (@List.length byte)) in Q.
    rewrite !length_take in Q. lia.
  - intros ->. reflexivity.
Qed.

End PinString.

(** ** Scenarios *)

Section Scenarios.
#[local] Existing Instances sample_codes sample_settings sample_protocol.




(** A secret of 72 base32 digits decodes to 45 bytes, more than the 40
    of the sample settings: the decoder's store runs past the array of 42
    bytes. *)
Lemma set_secret_on_device_ccid_overrun_scenario :
  List.length (base32_decode (Collaborators := device_answering 0x9000 [])
                 (replicate 72 "A"%byte)) = 45%nat /\
  HOTP_SECRET_SIZE_BYTES = 40%nat /\
  decoder_write_in_bounds (device := device_answering 0x9000 [])
    (replicate 72 "A"%byte) = false.
Proof.
  split; [reflexivity|]. split; [reflexivity|].
  apply (set_secret_on_device_ccid_decoder_overruns
           (device := device_answering 0x9000 []) (replicate 72 "A"%byte)).
  vm_compute. lia.
Defined.



(** C8, as stated, fails for the transport status 1: [set_pin_ccid]
    returns 1 when the transport fails with status 1, and returns 1 as
    well when the exchange succeeds and the device refuses with the status
    word 0x6A82, so the status passed on is not distinct from every
    outcome of the operation. *)
Lemma set_pin_ccid_transport_status_1_ambiguous :
  exchanges_made (set_pin_ccid (device := transport_failing 1) pin_0000)
    (machine_with xff)
  = [mkExchange 1 (zero_buffer 32) (response 0 []) 1%nat] /\
  fst (set_pin_ccid (device := transport_failing 1) pin_0000
         (machine_with xff)) = Returned 1 /\
  exchanges_made (set_pin_ccid (device := device_answering 0x6A82 []) pin_0000)
    (machine_with xff)
  = [answer 0x6A82 []] /\
  fst (set_pin_ccid (device := device_answering 0x6A82 []) pin_0000
         (machine_with xff)) = Returned 1.
Proof.
  repeat split; reflexivity.
Defined.

(** A transport failing with status -4 (a libusb error, say): the code
    verification and the status query both return -4. *)
Lemma transport_failure_scenario :
  fst (verify_code_ccid (device := transport_failing (-4)) 123456
         (machine_with xff)) = Returned (-4) /\
  fst (status_ccid (device := transport_failing (-4))
         (Some 1%nat) (Some 10%nat) (Some 11%nat) (Some 12%nat)
         (machine_with xff)) = Returned (-4).
Proof.
  assert (RET_NO_ERROR = 0) as Z0 by reflexivity.
  destruct (transport_status_returned_unchanged
              (device := transport_failing (-4))
              pin_0000 secret_JBSWY3DPEHPK3PXP 0 123456
              (Some 1%nat) (Some 10%nat) (Some 11%nat) (Some 12%nat)
              (machine_with xff) Z0) as (_ & _ & _ & V & S).
  split.
  - destruct (V (mkExchange (-4) (zero_buffer 32) (response 0 []) 1%nat))
      as (_ & R & _); [left; reflexivity | discriminate | exact R].
  - destruct (S (mkExchange (-4) [] (response 0 []) 1%nat))
      as (_ & R & _); [left; reflexivity | discriminate | exact R].
Defined.

(** Two machines whose buffers hold different leftovers: authentication
    clears them before it encodes and exchanges, and returns the same and
    makes the same calls on both. *)
Lemma buffers_cleared_scenario :
  clears_then_exchanges (device := device_answering 0x9000 [])
    (authenticate_ccid (device := device_answering 0x9000 []) pin_0000)
    (machine_with xff) /\
  same_session (machine_with xff) (machine_with "a"%byte) /\
  fst (authenticate_ccid (device := device_answering 0x9000 []) pin_0000
         (machine_with xff))
  = fst (authenticate_ccid (device := device_answering 0x9000 []) pin_0000
           (machine_with "a"%byte)) /\
  calls_made (authenticate_ccid (device := device_answering 0x9000 []) pin_0000)
    (machine_with xff)
  = calls_made (authenticate_ccid (device := device_answering 0x9000 []) pin_0000)
      (machine_with "a"%byte).
Proof.
  assert (same_session (machine_with xff) (machine_with "a"%byte)) as S
    by (repeat split; reflexivity).
  destruct (buffers_cleared_before_use
              (device := device_answering 0x9000 [])
              pin_0000 secret_JBSWY3DPEHPK3PXP 0 123456)
    as (_ & (P & Q) & _).
  split; [exact (P (machine_with xff))|]. split; [exact S|].
  destruct (Q _ _ S) as (R & C & _). split; [exact R | exact C].
Defined.

(** A select response holding only the version field 0x0100: no PIN
    attempts, firmware version 0x0100, serial number 0, attempt counter
    -1. *)
Lemma status_ccid_version_only_scenario :
  fst (status_of 0x9000 version_only) = Returned RET_NO_PIN_ATTEMPTS /\
  mem (snd (status_of 0x9000 version_only)) 10%nat = -1 /\
  mem (snd (status_of 0x9000 version_only)) 12%nat = 0 /\
  mem (snd (status_of 0x9000 version_only)) 11%nat = 0x0100.
Proof.
  pose proof (status_ccid_final_result
                (device := device_answering 0x9000 version_only)
                1%nat 10%nat 11%nat 12%nat (machine_with xff)
                (mkExchange 0 [] (response 0x9000 version_only) 1%nat)) as P.
  cbv zeta in P.
  destruct P as (_ & P & _);
    [discriminate | discriminate | discriminate | reflexivity | reflexivity
    | discriminate | reflexivity | ].
  exact (P eq_refl eq_refl).
Defined.

(** C5, as stated, fails for the select responses the first check
    turns away. A response that holds all three fields under the status
    word 0x6A82 gives the communication error, not success, and no output
    is written; an empty response under 0x9000 has no version field, and
    the firmware version is left as it was, not written as zero. *)
Lemma status_ccid_select_guard_first :
  found Tag_Version
    (wire_get_tlv all_fields (List.length all_fields) Tag_Version) = true /\
  found Tag_PINCounter
    (wire_get_tlv all_fields (List.length all_fields) Tag_PINCounter) = true /\
  found Tag_SerialNumber
    (wire_get_tlv all_fields (List.length all_fields) Tag_SerialNumber) = true /\
  fst (status_of 0x6A82 all_fields) = Returned RET_COMM_ERROR /\
  RET_COMM_ERROR <> RET_NO_ERROR /\
  mem (snd (status_of 0x6A82 all_fields)) 10%nat = 77 /\
  mem (snd (status_of 0x6A82 all_fields)) 11%nat = 77 /\
  mem (snd (status_of 0x6A82 all_fields)) 12%nat = 77 /\
  found Tag_Version (wire_get_tlv [] 0 Tag_Version) = false /\
  fst (status_of 0x9000 []) = Returned RET_COMM_ERROR /\
  mem (snd (status_of 0x9000 [])) 11%nat = 77.
Proof.
  repeat split; try reflexivity. discriminate.
Defined.

(** A select response with the status word 0x6A82: communication error,
    and the caller's objects keep their values. *)
Lemma status_ccid_refused_select_scenario :
  fst (status_of 0x6A82 version_only) = Returned RET_COMM_ERROR /\
  mem (snd (status_of 0x6A82 version_only)) = mem (machine_with xff).
Proof.
  pose proof (status_ccid_bad_select_response
                (device := device_answering 0x6A82 version_only)
                (Some 1%nat) (Some 10%nat) (Some 11%nat) (Some 12%nat)
                (machine_with xff)
                (mkExchange 0 [] (response 0x6A82 version_only) 1%nat)) as P.
  destruct P as (R & _ & Q);
    [reflexivity | reflexivity | right; discriminate | ].
  split; [exact R | exact Q].
Defined.

(** A PIN of nine bytes is cut to the eight of the sample settings. *)
Example set_pin_ccid_truncates_123456789 :
  calls_made (set_pin_ccid (device := device_answering 0x9000 []) pin_123456789)
    (machine_with xff)
  = [ call_clean_buffers;
      call_pack Ins_SetPIN
        [ {| tlv_tag := Tag_Password; tlv_length := 8; tlv_type := "S";
             tlv_value := v_str pin_123456789 |} ]
        (cleaned (dev (machine_with xff)));
      call_process_single
        {| mp_devhandle_ccid := Some 1%nat;
           ccid_buffer_in := zero_buffer 32;
           ccid_buffer_out :=
             [xb4; x80; x08; "1"; "2"; "3"; "4"; "5"; "6"; "7"; "8"]%byte
             ++ zero_buffer 21 |}
        11 (answer 0x9000 []) ].
Proof. reflexivity. Qed.

End Scenarios.

(** ** Further scenarios *)

Section FurtherScenarios.
#[local] Existing Instances sample_codes sample_settings sample_protocol.


(** Verify-Code(123456) against a device returning 0x9000 passes, and the
    exchange behind it carries 0x9000. *)
Lemma verify_code_ccid_passed_scenario :
  exists x,
    exchanges_made (verify_code_ccid (device := device_answering 0x9000 [])
                      123456) (machine_with xff) = [x] /\
    transport_status x = 0 /\ data_status_code (icc_result x) = 0x9000.
Proof.
  assert (RET_NO_ERROR = 0) as N0 by reflexivity.
  assert (RET_VALIDATION_PASSED = 0) as V0 by reflexivity.
  destruct (success_only_after_0x9000
              (device := device_answering 0x9000 [])
              pin_0000 secret_JBSWY3DPEHPK3PXP 0 123456 (machine_with xff)
              N0 V0) as (_ & _ & _ & P);
    [discriminate | discriminate | discriminate | discriminate | discriminate | ].
  apply P. reflexivity.
Defined.

(** A select response with all three fields under 0x9000: success. *)
Lemma status_ccid_success_scenario :
  fst (status_of 0x9000 all_fields) = Returned RET_NO_ERROR.
Proof.
  pose proof (status_ccid_success_iff
                (device := device_answering 0x9000 all_fields)
                1%nat 10%nat 11%nat 12%nat (machine_with xff)
                (select_answer 0x9000 all_fields)) as P.
  cbv zeta in P.
  destruct P as [_ P];
    [discriminate | discriminate | discriminate | discriminate | reflexivity | ].
  apply P. repeat split; try reflexivity. discriminate.
Defined.

(** A null firmware-version pointer: the query stops at its assertion and
    the device is not contacted. *)
Lemma status_ccid_null_firmware_version_scenario :
  status_ccid (device := device_answering 0x9000 all_fields)
    (Some 1%nat) (Some 10%nat) None (Some 12%nat) (machine_with xff)
  = (AssertionFailed firmware_version_not_NULL, machine_with xff).
Proof.
  destruct (status_ccid_null_pointer
              (device := device_answering 0x9000 all_fields)
              (Some 1%nat) (Some 10%nat) None (Some 12%nat) (machine_with xff))
    as [P _]; [reflexivity | exact P].
Defined.

(** The object at address 13 is none of the outputs and keeps its 77. *)
Lemma status_ccid_frame_scenario :
  mem (snd (status_of 0x9000 all_fields)) 13%nat = 77.
Proof.
  destruct (status_ccid_frame
              (device := device_answering 0x9000 all_fields)
              (Some 1%nat) (Some 10%nat) (Some 11%nat) (Some 12%nat)
              (machine_with xff) 13%nat) as [P _];
    [discriminate | discriminate | discriminate | exact P].
Defined.

(** No version field: the call fails, yet the attempt counter 8 and the
    serial number 0x01020304 are already written. *)
Lemma status_ccid_no_version_scenario :
  fst (status_of 0x9000 no_version) = Returned RET_COMM_ERROR /\
  mem (snd (status_of 0x9000 no_version)) 10%nat = 8 /\
  mem (snd (status_of 0x9000 no_version)) 12%nat = 0x01020304.
Proof.
  pose proof (status_ccid_outputs_before_version_check
                (device := device_answering 0x9000 no_version)
                1%nat 10%nat 11%nat 12%nat (machine_with xff)
                (select_answer 0x9000 no_version)) as P.
  cbv zeta in P.
  destruct P as (_ & Pa & Ps);
    [discriminate | discriminate | discriminate | reflexivity | reflexivity
    | discriminate | reflexivity | reflexivity | ].
  split; [reflexivity|]. split; [exact Pa | exact Ps].
Defined.

(** All three fields: attempt counter 8, serial number 0x01020304 =
    16909060, version 0x0100 = 256. *)
Lemma status_ccid_numbers_scenario :
  mem (snd (status_of 0x9000 all_fields)) 10%nat = 8 /\
  mem (snd (status_of 0x9000 all_fields)) 12%nat = 16909060 /\
  mem (snd (status_of 0x9000 all_fields)) 11%nat = 256.
Proof.
  pose proof (status_ccid_numbers
                (device := device_answering 0x9000 all_fields)
                1%nat 10%nat 11%nat 12%nat (machine_with xff)
                (select_answer 0x9000 all_fields)) as P.
  cbv zeta in P.
  destruct P as (Pa & Ps & Pf);
    [discriminate | discriminate | discriminate | reflexivity | reflexivity
    | discriminate | reflexivity | ].
  destruct (Pa eq_refl) as [Qa _]. destruct (Ps eq_refl) as [Qs _].
  destruct (Pf eq_refl) as [Qf _].
  split; [exact Qa|]. split; [exact Qs | exact Qf].
Defined.

(** Provisioning JBSWY3DPEHPK3PXP: the key field is the byte 0x31, the
    digit count 6 and the ten decoded bytes, twelve bytes in all. *)
Lemma set_secret_on_device_ccid_key_field_scenario :
  exists slot key properties counter d d' n,
    calls_made
      (set_secret_on_device_ccid (device := device_answering 0x9000 [])
         secret_JBSWY3DPEHPK3PXP 0) (machine_with xff) =
    [ call_clean_buffers;
      call_pack Ins_Put [slot; key; properties; counter] d;
      call_process_single d' n (answer 0x9000 []) ] /\
    tlv_length key = 12%nat /\
    field_bytes key =
    [x31; x06; "H"; "e"; "l"; "l"; "o"; "!"; xde; xad; xbe; xef]%byte.
Proof.
  destruct (set_secret_on_device_ccid_key_field
              (device := device_answering 0x9000 [])
              secret_JBSWY3DPEHPK3PXP 0 (machine_with xff) (answer 0x9000 []))
    as (slot & key & properties & counter & d & d' & n & C & _ & L & _ & F);
    [reflexivity|].
  exists slot, key, properties, counter, d, d', n.
  split; [exact C|]. split; [exact L | exact F].
Defined.

(** Provisioning and verification on the sample slot: both requests open
    with the field of the four bytes HOTP. *)
Lemma provisioning_and_verification_slot_scenario :
  exists slot put_rest verify_rest d1 d1' n1 d2 d2' n2 x2,
    calls_made
      (set_secret_on_device_ccid (device := device_answering 0x9000 [])
         secret_JBSWY3DPEHPK3PXP 0) (machine_with xff) =
    [ call_clean_buffers; call_pack Ins_Put (slot :: put_rest) d1;
      call_process_single d1' n1 (answer 0x9000 []) ] /\
    calls_made
      (verify_code_ccid (device := device_answering 0x9000 []) 123456)
      (machine_with xff) =
    [ call_clean_buffers; call_pack Ins_VerifyCode (slot :: verify_rest) d2;
      call_process_single d2' n2 x2 ] /\
    field_bytes slot = ["H"; "O"; "T"; "P"]%byte.
Proof.
  destruct (provisioning_and_verification_slot
              (device := device_answering 0x9000 [])
              secret_JBSWY3DPEHPK3PXP 0 123456 (machine_with xff)
              (answer 0x9000 []))
    as (slot & pr & vr & d1 & d1' & n1 & d2 & d2' & n2 & x2 & C1 & C2 & _ & F);
    [reflexivity|].
  exists slot, pr, vr, d1, d1', n1, d2, d2', n2, x2.
  split; [exact C1|]. split; [exact C2 | exact F].
Defined.

(** A secret of 64 base32 digits decodes to 40 bytes, which fit the array
    of the sample settings, yet with the two header bytes exceed 40:
    provisioning stops at its first assertion. *)
Lemma set_secret_on_device_ccid_tight_scenario :
  List.length (base32_decode (Collaborators := device_answering 0x9000 [])
                 (replicate 64 "A"%byte)) = 40%nat /\
  set_secret_on_device_ccid (device := device_answering 0x9000 [])
    (replicate 64 "A"%byte) 0 (machine_with xff)
  = (AssertionFailed decoded_length_le_HOTP_SECRET_SIZE_BYTES,
     machine_with xff).
Proof.
  split; [reflexivity|].
  apply (set_secret_on_device_ccid_tight_secret
           (device := device_answering 0x9000 [])
           (replicate 64 "A"%byte) 0 (machine_with xff));
    vm_compute; lia.
Defined.

End FurtherScenarios.
